(** * tr_payment_hub: the FastAPI reference backend

    A shallow embedding of [backend-examples/python-fastapi/main.py]: the
    request models, the two mapping helpers ([map_currency],
    [map_payment_request], [map_payment_response]) and the nine endpoint
    handlers, together with the fragment of Python the handlers rely on
    ([str] and [float] on floats, [dict.get], truthiness, exceptions). *)

From Stdlib Require Import ZArith List String Ascii Bool Lia QArith Qreduction.
Import ListNotations.
Open Scope string_scope.
Open Scope list_scope.
Open Scope Z_scope.
Set Warnings "-register-all".

(** ** Python floats

    A Python [float] is an IEEE-754 binary64 number.  [FNum neg m e] stands
    for [(-1)^neg * m * 2^e]. *)

Inductive float : Type :=
| FNan
| FInf (neg : bool)
| FZero (neg : bool)
| FNum (neg : bool) (m : positive) (e : Z).

Definition emin : Z := -1074.
Definition emax : Z := 971.

(** The mantissa has at most 53 bits, and exactly 53 unless the number is
    subnormal. *)
Definition float_valid (x : float) : bool :=
  match x with
  | FNum _ m e =>
      (Z.pos m <? 2 ^ 53) && (emin <=? e) && (e <=? emax)
      && ((2 ^ 52 <=? Z.pos m) || (e =? emin))
  | _ => true
  end.

Definition float_finite (x : float) : bool :=
  match x with
  | FZero _ | FNum _ _ _ => true
  | _ => false
  end.

(** [bool(x)]: a float is falsy exactly when it is a zero. *)
Definition float_truthy (x : float) : bool :=
  match x with
  | FZero _ => false
  | _ => true
  end.

(** [x == y] on floats: the two zeros are equal, a nan equals nothing. *)
Definition float_eqb (x y : float) : bool :=
  match x, y with
  | FZero _, FZero _ => true
  | FInf a, FInf b => Bool.eqb a b
  | FNum a m e, FNum b m' e' => Bool.eqb a b && (Z.pos m =? Z.pos m') && (e =? e')
  | _, _ => false
  end.

(** [x > 0]. *)
Definition float_gt_zero (x : float) : bool :=
  match x with
  | FInf false | FNum false _ _ => true
  | _ => false
  end.

(** *** Rounding a ratio to the nearest float, ties to even *)

(** [n / d] rounded to the nearest integer, ties to the even one. *)
Definition round_even (n d : Z) : Z :=
  let q := n / d in
  match 2 * (n mod d) ?= d with
  | Lt => q
  | Gt => q + 1
  | Eq => if Z.even q then q else q + 1
  end.

(** Every float is a multiple of [2^emin]: the ratio is first counted in
    that unit, [n / d = t * 2^emin].  The mantissa keeps the 53 leading
    bits of [t] (all of them below [2^53], the subnormal range), rounded. *)
Definition round_ratio (neg : bool) (n d : Z) : float :=
  if n <=? 0 then FZero neg
  else
    let N := n * 2 ^ 1074 in
    let s := Z.max (Z.log2 (N / d) - 52) 0 in
    let m := round_even N (d * 2 ^ s) in
    let ms := if m =? 2 ^ 53 then (2 ^ 52, s + 1) else (m, s) in
    match fst ms with
    | Z.pos p =>
        if snd ms + emin <=? emax then FNum neg p (snd ms + emin) else FInf neg
    | _ => FZero neg
    end.

(** The decimal [c * 10^k] as a rational. *)
Definition decimal_Q (c k : Z) : Q :=
  if 0 <=? k then Qmake (c * 10 ^ k) 1 else Qmake c (Z.to_pos (10 ^ (- k))).

(** The float nearest to [(-1)^neg * c * 10^k], for [0 <= c]. *)
Definition float_of_decimal (neg : bool) (c k : Z) : float :=
  let q := Qred (decimal_Q c k) in
  round_ratio neg (Qnum q) (Z.pos (Qden q)).

(** [float(n)] for a Python [int]; [None] is [OverflowError]. *)
Definition float_of_int (n : Z) : option float :=
  match round_ratio (n <? 0) (Z.abs n) 1 with
  | FInf _ => None
  | x => Some x
  end.

(** *** Decimal digits *)

Definition code (c : ascii) : Z := Z.of_N (N_of_ascii c).

Definition is_digit (c : ascii) : bool := (48 <=? code c) && (code c <=? 57).

Definition digit_val (c : ascii) : Z := code c - 48.

Definition digit_char (d : Z) : ascii := ascii_of_N (Z.to_N (48 + d)).

(** Horner evaluation of a digit string; [None] when a character is not a
    decimal digit. *)
Fixpoint digits_val (acc : Z) (l : list ascii) : option Z :=
  match l with
  | [] => Some acc
  | c :: l' =>
      if is_digit c then digits_val (10 * acc + digit_val c) l' else None
  end.

Fixpoint digits_fuel (fuel : nat) (n : Z) (acc : list ascii) : list ascii :=
  match fuel with
  | O => acc
  | S f =>
      let acc' := digit_char (n mod 10) :: acc in
      if n <? 10 then acc' else digits_fuel f (n / 10) acc'
  end.

(** The decimal digits of [n >= 0], most significant first. *)
Definition digits_of (n : Z) : list ascii :=
  digits_fuel (S (Z.to_nat (Z.log2 n))) n [].

(** [str(n)] for a Python [int]. *)
Definition str_int (n : Z) : string :=
  string_of_list_ascii
    (if n <? 0 then "-"%char :: digits_of (- n) else digits_of n).

(** *** [repr] of a float: the shortest decimal that reads back *)

(** Decimal exponents are counted from [-340], below the last digit that
    17 significant digits of the smallest float can reach: the decimal
    [c * 10^(k - 340)] is compared with [N / d] as [c * 10^k] with
    [N / (d * 10^340)], for [0 <= k]. *)
Definition decimal_shift : Z := 340.

(** The largest [k] with [d * 10^k <= N], found by scanning upwards. *)
Fixpoint scan_log10 (fuel : nat) (N d k : Z) : Z :=
  match fuel with
  | O => k
  | S f => if d * 10 ^ (k + 1) <=? N then scan_log10 f N d (k + 1) else k
  end.

(** At each step the two decimals [lo * 10^k <= N/d < (lo + 1) * 10^k] that
    enclose the number are tried, the nearer one first; one more digit is
    taken when neither reads back as [x].  With no step left the nearer one
    is returned. *)
Fixpoint shortest_from (steps : nat) (x : float) (N d k : Z) : Z * Z :=
  let D := d * 10 ^ k in
  let lo := N / D in
  let hi := lo + 1 in
  let near := round_even N D in
  match steps with
  | O => (near, k)
  | S s =>
      if float_eqb (float_of_decimal false near (k - decimal_shift)) x
      then (near, k)
      else if float_eqb (float_of_decimal false lo (k - decimal_shift)) x
      then (lo, k)
      else if float_eqb (float_of_decimal false hi (k - decimal_shift)) x
      then (hi, k)
      else shortest_from s x N d (k - 1)
  end.

Fixpoint strip_zeros (fuel : nat) (c k : Z) : Z * Z :=
  match fuel with
  | O => (c, k)
  | S f =>
      if (c mod 10 =? 0) && (0 <? c) then strip_zeros f (c / 10) (k + 1)
      else (c, k)
  end.

(** The digits [c] and exponent [k] printed for the positive float
    [m * 2^e]: at most 17 significant digits, no trailing zero. *)
Definition shortest_decimal (m : positive) (e : Z) : Z * Z :=
  let N := Z.pos m * 2 ^ (e - emin) * 10 ^ decimal_shift in
  let d := 2 ^ 1074 in
  let ck := shortest_from 16 (FNum false m e) N d (scan_log10 640 N d 16) in
  strip_zeros 17 (fst ck) (snd ck - decimal_shift).

Definition zeros (n : Z) : list ascii := repeat "0"%char (Z.to_nat n).

Definition pad2 (l : list ascii) : list ascii :=
  match l with
  | [c] => ["0"%char; c]
  | _ => l
  end.

(** The layout of [repr]: the digits [ds] with the decimal point after the
    first [decpt] of them; exponent notation when [decpt] is below [-3] or
    above [16]. *)
Definition format_repr (ds : list ascii) (decpt : Z) : list ascii :=
  let nd := Z.of_nat (List.length ds) in
  if (decpt <=? -4) || (16 <? decpt) then
    let ex := decpt - 1 in
    firstn 1 ds
      ++ match skipn 1 ds with
         | [] => []
         | tl => "."%char :: tl
         end
      ++ "e"%char :: (if ex <? 0 then "-"%char else "+"%char)
      :: pad2 (digits_of (Z.abs ex))
  else if decpt <=? 0 then
    "0"%char :: "."%char :: zeros (- decpt) ++ ds
  else if nd <=? decpt then
    ds ++ zeros (decpt - nd) ++ ["."%char; "0"%char]
  else
    firstn (Z.to_nat decpt) ds ++ "."%char :: skipn (Z.to_nat decpt) ds.

Definition with_sign (neg : bool) (l : list ascii) : list ascii :=
  if neg then "-"%char :: l else l.

Definition repr_chars (x : float) : list ascii :=
  match x with
  | FNan => list_ascii_of_string "nan"
  | FInf neg => with_sign neg (list_ascii_of_string "inf")
  | FZero neg => with_sign neg (list_ascii_of_string "0.0")
  | FNum neg m e =>
      let ck := shortest_decimal m e in
      let ds := digits_of (fst ck) in
      with_sign neg (format_repr ds (snd ck + Z.of_nat (List.length ds)))
  end.

(** [str(x)] for a Python [float]. *)
Definition str_float (x : float) : string := string_of_list_ascii (repr_chars x).

(** *** [float] of a string *)

(** Characters removed from both ends: ASCII white space, NEL and the
    no-break space. *)
Definition is_space (c : ascii) : bool :=
  ((9 <=? code c) && (code c <=? 13)) || (code c =? 32)
  || (code c =? 133) || (code c =? 160).

Fixpoint lstrip (l : list ascii) : list ascii :=
  match l with
  | c :: l' => if is_space c then lstrip l' else l
  | [] => []
  end.

Definition strip (l : list ascii) : list ascii :=
  rev (lstrip (rev (lstrip l))).

Definition is_underscore (c : ascii) : bool := code c =? 95.

(** An underscore is accepted between two digits only, and dropped. *)
Fixpoint remove_underscores (after_digit : bool) (l : list ascii)
  : option (list ascii) :=
  match l with
  | [] => Some []
  | c :: l' =>
      if is_underscore c then
        if after_digit && match l' with d :: _ => is_digit d | [] => false end
        then remove_underscores false l'
        else None
      else option_map (cons c) (remove_underscores (is_digit c) l')
  end.

Fixpoint split_at (p : ascii -> bool) (l : list ascii)
  : list ascii * option (list ascii) :=
  match l with
  | [] => ([], None)
  | c :: l' =>
      if p c then ([], Some l')
      else let ab := split_at p l' in (c :: fst ab, snd ab)
  end.

Definition is_dot (c : ascii) : bool := code c =? 46.
Definition is_exp (c : ascii) : bool := (code c =? 101) || (code c =? 69).
Definition is_minus (c : ascii) : bool := code c =? 45.
Definition is_plus (c : ascii) : bool := code c =? 43.

(** An optional sign. *)
Definition split_sign (l : list ascii) : bool * list ascii :=
  match l with
  | c :: l' =>
      if is_minus c then (true, l')
      else if is_plus c then (false, l')
      else (false, l)
  | [] => (false, [])
  end.

Definition nonempty_digits (l : list ascii) : option Z :=
  match l with
  | [] => None
  | _ => digits_val 0 l
  end.

(** [digits [. digits] [(e|E) [sign] digits]] with a digit before the
    exponent; the result is the pair [(c, k)] of the decimal [c * 10^k]. *)
Definition parse_decimal (l : list ascii) : option (Z * Z) :=
  let me := split_at is_exp l in
  let ifr := split_at is_dot (fst me) in
  let frac := match snd ifr with Some f => f | None => [] end in
  match nonempty_digits (fst ifr ++ frac) with
  | None => None
  | Some c =>
      match snd me with
      | None => Some (c, - Z.of_nat (List.length frac))
      | Some es =>
          let se := split_sign es in
          match nonempty_digits (snd se) with
          | None => None
          | Some ex =>
              Some (c, (if fst se then - ex else ex) - Z.of_nat (List.length frac))
          end
      end
  end.

Definition lower (c : ascii) : ascii :=
  if (65 <=? code c) && (code c <=? 90) then ascii_of_N (N_of_ascii c + 32)
  else c.

Definition chars_eqb (a b : list ascii) : bool :=
  String.eqb (string_of_list_ascii a) (string_of_list_ascii b).

(** [float(s)] for a Python [str]; [None] is [ValueError]. *)
Definition float_of_chars (l : list ascii) : option float :=
  match remove_underscores false (strip l) with
  | None => None
  | Some l1 =>
      let sl := split_sign l1 in
      let neg := fst sl in
      let w := map lower (snd sl) in
      if chars_eqb w (list_ascii_of_string "inf")
         || chars_eqb w (list_ascii_of_string "infinity")
      then Some (FInf neg)
      else if chars_eqb w (list_ascii_of_string "nan") then Some FNan
      else
        match parse_decimal (snd sl) with
        | Some (c, k) => Some (float_of_decimal neg c k)
        | None => None
        end
  end.

Definition float_of_string (s : string) : option float :=
  float_of_chars (list_ascii_of_string s).

(** ** Python values

    The values that flow through the handlers: decoded JSON, and the dicts
    the handlers build.  A dict is an association list in insertion order
    with distinct keys. *)

Inductive pyval : Type :=
| PNone
| PBool (b : bool)
| PInt (n : Z)
| PFloat (x : float)
| PStr (s : string)
| PList (l : list pyval)
| PDict (d : list (string * pyval)).

Definition pydict : Type := list (string * pyval).

Fixpoint dict_get (k : string) (d : pydict) : option pyval :=
  match d with
  | [] => None
  | (k', v) :: d' => if String.eqb k k' then Some v else dict_get k d'
  end.

(** [d[k] = v]: an existing key keeps its place. *)
Fixpoint dict_set (k : string) (v : pyval) (d : pydict) : pydict :=
  match d with
  | [] => [(k, v)]
  | (k', v') :: d' =>
      if String.eqb k k' then (k, v) :: d' else (k', v') :: dict_set k v d'
  end.

(** [d.get(k, default)]. *)
Definition get_default (d : pydict) (k : string) (default : pyval) : pyval :=
  match dict_get k d with
  | Some v => v
  | None => default
  end.

(** [v == "s"] for a string literal [s]. *)
Definition eq_str (v : pyval) (s : string) : bool :=
  match v with
  | PStr s' => String.eqb s' s
  | _ => false
  end.

(** [bool(v)]. *)
Definition truthy (v : pyval) : bool :=
  match v with
  | PNone => false
  | PBool b => b
  | PInt n => negb (n =? 0)
  | PFloat x => float_truthy x
  | PStr s => negb (String.eqb s EmptyString)
  | PList l => match l with [] => false | _ => true end
  | PDict d => match d with [] => false | _ => true end
  end.

Definition opt_str (o : option string) : pyval :=
  match o with
  | Some s => PStr s
  | None => PNone
  end.

(** ** Exceptions *)

(** The exceptions other than [HTTPException] that the handlers can meet.
    [RequestValidationError] is what the framework raises, before the
    handler runs, when a parameter breaks its declared constraint; [Raised]
    is any exception coming out of the SDK or of [json.loads]. *)
Inductive pyerror : Type :=
| AttributeError (obj : pyval) (attr : string)
| TypeError (op : string) (obj : pyval)
| ValueError (op : string) (arg : string)
| OverflowError
| KeyError (key : pyval)
| IndexError
| RequestValidationError (loc : list (list string))
| Raised (msg : string).

Inductive pyexc : Type :=
| HTTPException (status_code : Z) (detail : pyval)
| Other (e : pyerror).

(** A computation that returns a value or raises. *)
Inductive exc (A : Type) : Type :=
| Ok (a : A)
| Raise (e : pyexc).

Arguments Ok {A} a.
Arguments Raise {A} e.

Definition bind {A B : Type} (m : exc A) (f : A -> exc B) : exc B :=
  match m with
  | Ok a => f a
  | Raise e => Raise e
  end.

Notation "x <- m ;; k" := (bind m (fun x => k))
  (at level 61, m at next level, right associativity).

Fixpoint mapM {A B : Type} (f : A -> exc B) (l : list A) : exc (list B) :=
  match l with
  | [] => Ok []
  | a :: l' => b <- f a ;; bs <- mapM f l' ;; Ok (b :: bs)
  end.

(** [v.get(k, default)]: only a dict has the method. *)
Definition py_get (v : pyval) (k : string) (default : pyval) : exc pyval :=
  match v with
  | PDict d => Ok (get_default d k default)
  | _ => Raise (Other (AttributeError v "get"))
  end.

Definition float_one : float := FNum false (2 ^ 52) (-52).

(** [float(v)]. *)
Definition py_float (v : pyval) : exc float :=
  match v with
  | PFloat x => Ok x
  | PInt n =>
      match float_of_int n with
      | Some x => Ok x
      | None => Raise (Other OverflowError)
      end
  | PBool b => Ok (if b then float_one else FZero false)
  | PStr s =>
      match float_of_string s with
      | Some x => Ok x
      | None => Raise (Other (ValueError "float" s))
      end
  | _ => Raise (Other (TypeError "float" v))
  end.

(** [v[0]]. *)
Definition py_first (v : pyval) : exc pyval :=
  match v with
  | PList (a :: _) => Ok a
  | PStr (String c _) => Ok (PStr (String c EmptyString))
  | PList [] | PStr EmptyString => Raise (Other IndexError)
  | PDict _ => Raise (Other (KeyError (PInt 0)))
  | _ => Raise (Other (TypeError "subscript" v))
  end.

(** [v[k]] for a string key. *)
Definition py_item (v : pyval) (k : string) : exc pyval :=
  match v with
  | PDict d =>
      match dict_get k d with
      | Some a => Ok a
      | None => Raise (Other (KeyError (PStr k)))
      end
  | _ => Raise (Other (TypeError "subscript" v))
  end.

(** The items a [for] loop over [v] visits. *)
Definition py_iter (v : pyval) : exc (list pyval) :=
  match v with
  | PList l => Ok l
  | PDict d => Ok (map (fun kv => PStr (fst kv)) d)
  | PStr s => Ok (map (fun c => PStr (String c EmptyString)) (list_ascii_of_string s))
  | _ => Raise (Other (TypeError "iter" v))
  end.

(** ** Request models *)

Record CardInfo : Type := {
  cardHolderName : string;
  cardNumber : string;
  expireMonth : string;
  expireYear : string;
  cvc : string;
  registerCard : bool
}.

Record BuyerInfo : Type := {
  buyer_id : string;
  buyer_name : string;
  surname : string;
  email : string;
  phone : string;
  ip : string;
  city : string;
  country : string;
  address : string;
  identityNumber : option string
}.

Record BasketItem : Type := {
  item_id : string;
  item_name : string;
  category : string;
  price : float;
  itemType : string
}.

(** The value of [itemType] when the client leaves it out. *)
Definition itemType_default : string := "physical".

Record PaymentRequest : Type := {
  orderId : string;
  amount : float;
  paidPrice : option float;
  currency : string;
  installment : Z;
  card : CardInfo;
  buyer : BuyerInfo;
  basketItems : list BasketItem;
  callbackUrl : option string
}.

Record RefundRequest : Type := {
  refund_transactionId : string;
  refund_amount : float
}.

Record ChargeRequest : Type := {
  cardToken : string;
  cardUserKey : string;
  charge_orderId : string;
  charge_amount : float;
  charge_buyer : BuyerInfo;
  charge_basketItems : list BasketItem
}.

Record ThreeDSCompleteRequest : Type := {
  transactionId : string;
  callbackData : option pydict
}.

(** ** Helper functions *)

Definition currency_mapping : pydict :=
  [("tryLira", PStr "TRY"); ("usd", PStr "USD");
   ("eur", PStr "EUR"); ("gbp", PStr "GBP")].

Definition map_currency (currency : string) : pyval :=
  get_default currency_mapping currency (PStr "TRY").

(** [a or b] where [a] is an optional float. *)
Definition float_or (a : option float) (b : float) : float :=
  match a with
  | Some x => if float_truthy x then x else b
  | None => b
  end.

(** [a or b] where [a] is an optional string. *)
Definition str_or (a : option string) (b : string) : string :=
  match a with
  | Some s => if String.eqb s EmptyString then b else s
  | None => b
  end.

Definition map_item_kind (kind : string) : string :=
  if String.eqb kind "physical" then "PHYSICAL" else "VIRTUAL".

Definition buyer_dict (b : BuyerInfo) : pyval :=
  PDict
    [("id", PStr (buyer_id b));
     ("name", PStr (buyer_name b));
     ("surname", PStr (surname b));
     ("gsmNumber", PStr (phone b));
     ("email", PStr (email b));
     ("identityNumber", PStr (str_or (identityNumber b) "11111111111"));
     ("registrationAddress", PStr (address b));
     ("ip", PStr (ip b));
     ("city", PStr (city b));
     ("country", PStr (country b))].

Definition address_dict (b : BuyerInfo) : pyval :=
  PDict
    [("contactName", PStr (buyer_name b ++ " " ++ surname b)%string);
     ("city", PStr (city b));
     ("country", PStr (country b));
     ("address", PStr (address b))].

Definition basket_item_dict (item : BasketItem) : pyval :=
  PDict
    [("id", PStr (item_id item));
     ("name", PStr (item_name item));
     ("category1", PStr (category item));
     ("itemType", PStr (map_item_kind (itemType item)));
     ("price", PStr (str_float (price item)))].

Definition map_payment_request (req : PaymentRequest) : pydict :=
  let paid_price := float_or (paidPrice req) (amount req) in
  [("locale", PStr "tr");
   ("conversationId", PStr (orderId req));
   ("price", PStr (str_float (amount req)));
   ("paidPrice", PStr (str_float paid_price));
   ("currency", map_currency (currency req));
   ("installment", PStr (str_int (installment req)));
   ("basketId", PStr (orderId req));
   ("paymentChannel", PStr "WEB");
   ("paymentGroup", PStr "PRODUCT");
   ("paymentCard",
     PDict
       [("cardHolderName", PStr (cardHolderName (card req)));
        ("cardNumber", PStr (cardNumber (card req)));
        ("expireMonth", PStr (expireMonth (card req)));
        ("expireYear", PStr (expireYear (card req)));
        ("cvc", PStr (cvc (card req)));
        ("registerCard", PStr (if registerCard (card req) then "1" else "0"))]);
   ("buyer", buyer_dict (buyer req));
   ("shippingAddress", address_dict (buyer req));
   ("billingAddress", address_dict (buyer req));
   ("basketItems", PList (map basket_item_dict (basketItems req)))].

Definition map_payment_response (result : pyval) : exc pyval :=
  status <- py_get result "status" PNone ;;
  if eq_str status "success" then
    transactionId <- py_get result "paymentId" PNone ;;
    paymentId <- py_get result "paymentId" PNone ;;
    price <- py_get result "price" (PInt 0) ;;
    amount <- py_float price ;;
    paidPrice <- py_get result "paidPrice" (PInt 0) ;;
    paidAmount <- py_float paidPrice ;;
    installment <- py_get result "installment" PNone ;;
    cardType <- py_get result "cardType" PNone ;;
    cardAssociation <- py_get result "cardAssociation" PNone ;;
    binNumber <- py_get result "binNumber" PNone ;;
    lastFourDigits <- py_get result "lastFourDigits" PNone ;;
    Ok (PDict
          [("success", PBool true);
           ("transactionId", transactionId);
           ("paymentId", paymentId);
           ("amount", PFloat amount);
           ("paidAmount", PFloat paidAmount);
           ("installment", installment);
           ("cardType", cardType);
           ("cardAssociation", cardAssociation);
           ("binNumber", binNumber);
           ("lastFourDigits", lastFourDigits)])
  else
    errorCode <- py_get result "errorCode" (PStr "unknown") ;;
    errorMessage <- py_get result "errorMessage" (PStr "Unknown error") ;;
    Ok (PDict
          [("success", PBool false);
           ("errorCode", errorCode);
           ("errorMessage", errorMessage)]).

(** ** Endpoints *)

(** The calls made to the processor SDK. *)
Inductive sdk_call : Type :=
| Payment_create
| ThreedsInitialize_create
| ThreedsPayment_create
| InstallmentInfo_retrieve
| Refund_create
| Payment_retrieve
| CardList_retrieve
| Card_delete.

(** The payloads that three of the handlers build in place. *)

Definition complete_3ds_request (request : ThreeDSCompleteRequest) : pydict :=
  let callback :=
    match callbackData request with
    | Some d => if truthy (PDict d) then d else []
    | None => []
    end in
  [("locale", PStr "tr");
   ("conversationId", PStr (transactionId request));
   ("paymentId", get_default callback "paymentId" (PStr (transactionId request)))].

Definition refund_request (now : Z) (request : RefundRequest) : pydict :=
  [("locale", PStr "tr");
   ("conversationId", PStr (str_int now));
   ("paymentTransactionId", PStr (refund_transactionId request));
   ("price", PStr (str_float (refund_amount request)));
   ("currency", PStr "TRY")].

Definition charge_request (request : ChargeRequest) : pydict :=
  [("locale", PStr "tr");
   ("conversationId", PStr (charge_orderId request));
   ("price", PStr (str_float (charge_amount request)));
   ("paidPrice", PStr (str_float (charge_amount request)));
   ("currency", PStr "TRY");
   ("installment", PStr "1");
   ("basketId", PStr (charge_orderId request));
   ("paymentChannel", PStr "WEB");
   ("paymentGroup", PStr "PRODUCT");
   ("paymentCard",
     PDict
       [("cardToken", PStr (cardToken request));
        ("cardUserKey", PStr (cardUserKey request))]);
   ("buyer", buyer_dict (charge_buyer request));
   ("shippingAddress", address_dict (charge_buyer request));
   ("billingAddress", address_dict (charge_buyer request));
   ("basketItems", PList (map basket_item_dict (charge_basketItems request)))].

Definition failure_envelope (errorCode errorMessage : pyval) : pyval :=
  PDict
    [("success", PBool false);
     ("errorCode", errorCode);
     ("errorMessage", errorMessage)].

Section Endpoints.

(** [iyzipay.X().create(request, options).read()], or the exception it
    raises. *)
Variable iyzipay : sdk_call -> pydict -> pyval + pyerror.

(** [json.loads]. *)
Variable json_loads : string -> pyval + pyerror.

(** [str(e)] for an exception. *)
Variable str_error : pyerror -> string.

(** [int(time.time())] at the time of the request. *)
Variable now : Z.

Definition lift (r : pyval + pyerror) : exc pyval :=
  match r with
  | inl v => Ok v
  | inr e => Raise (Other e)
  end.

(** The SDK call and the decoding of a result that comes as a string. *)
Definition call_processor (call : sdk_call) (request : pydict) : exc pyval :=
  result <- lift (iyzipay call request) ;;
  match result with
  | PStr s => lift (json_loads s)
  | _ => Ok result
  end.

(** [except HTTPException: raise] then [except Exception as e: ...]. *)
Definition guarded (body : exc pyval) : exc pyval :=
  match body with
  | Raise (Other e) =>
      Raise (HTTPException 500
               (failure_envelope (PStr "server_error") (PStr (str_error e))))
  | r => r
  end.

(** The closing [raise HTTPException(status_code=400, ...)] of a handler. *)
Definition raise_failure (result : pyval) (code message : string)
  : exc pyval :=
  errorCode <- py_get result "errorCode" (PStr code) ;;
  errorMessage <- py_get result "errorMessage" (PStr message) ;;
  Raise (HTTPException 400 (failure_envelope errorCode errorMessage)).

(** [response = map_payment_response(result)] and what follows it. *)
Definition respond (result : pyval) : exc pyval :=
  response <- map_payment_response result ;;
  success <- py_item response "success" ;;
  if negb (truthy success) then Raise (HTTPException 400 response)
  else Ok response.

Definition create_payment (request : PaymentRequest) : exc pyval :=
  guarded
    (let iyzico_request := map_payment_request request in
     result <- call_processor Payment_create iyzico_request ;;
     respond result).

Definition init_3ds_payment (request : PaymentRequest) : exc pyval :=
  guarded
    (let iyzico_request :=
       dict_set "callbackUrl" (opt_str (callbackUrl request))
         (map_payment_request request) in
     result <- call_processor ThreedsInitialize_create iyzico_request ;;
     status <- py_get result "status" PNone ;;
     if eq_str status "success" then
       transactionId <- py_get result "conversationId" PNone ;;
       htmlContent <- py_get result "threeDSHtmlContent" PNone ;;
       Ok (PDict
             [("success", PBool true);
              ("status", PStr "pending");
              ("transactionId", transactionId);
              ("htmlContent", htmlContent)])
     else raise_failure result "3ds_init_failed" "3DS initialization failed").

Definition complete_3ds_payment (request : ThreeDSCompleteRequest)
  : exc pyval :=
  guarded
    (let iyzico_request := complete_3ds_request request in
     result <- call_processor ThreedsPayment_create iyzico_request ;;
     respond result).

Definition installment_option (opt : pyval) : exc pyval :=
  installmentNumber <- py_get opt "installmentNumber" PNone ;;
  installmentPrice <- py_get opt "installmentPrice" (PInt 0) ;;
  installmentPrice <- py_float installmentPrice ;;
  totalPrice <- py_get opt "totalPrice" (PInt 0) ;;
  totalPrice <- py_float totalPrice ;;
  Ok (PDict
        [("installmentNumber", installmentNumber);
         ("installmentPrice", PFloat installmentPrice);
         ("totalPrice", PFloat totalPrice)]).

Definition installments_request (binNumber : string) (amount : float)
  : pydict :=
  [("locale", PStr "tr");
   ("conversationId", PStr (str_int now));
   ("binNumber", PStr binNumber);
   ("price", PStr (str_float amount))].

(** The constraints declared on the two query parameters. *)
Definition installments_violations (binNumber : string) (amount : float)
  : list (list string) :=
  let n := Z.of_nat (String.length binNumber) in
  (if (6 <=? n) && (n <=? 8) then [] else [["query"; "binNumber"]])
    ++ (if float_gt_zero amount then [] else [["query"; "amount"]]).

Definition get_installments (binNumber : string) (amount : float)
  : exc pyval :=
  match installments_violations binNumber amount with
  | [] =>
      guarded
        (let iyzico_request := installments_request binNumber amount in
         result <- call_processor InstallmentInfo_retrieve iyzico_request ;;
         status <- py_get result "status" PNone ;;
         let failure :=
           raise_failure result "no_installments"
             "No installment options found" in
         if eq_str status "success" then
           details <- py_get result "installmentDetails" (PList []) ;;
           if truthy details then
             detail <- py_first details ;;
             binNumber <- py_get detail "binNumber" PNone ;;
             bankName <- py_get detail "bankName" PNone ;;
             bankCode <- py_get detail "bankCode" PNone ;;
             cardType <- py_get detail "cardType" PNone ;;
             cardAssociation <- py_get detail "cardAssociation" PNone ;;
             prices <- py_get detail "installmentPrices" (PList []) ;;
             prices <- py_iter prices ;;
             options <- mapM installment_option prices ;;
             Ok (PDict
                   [("success", PBool true);
                    ("binNumber", binNumber);
                    ("bankName", bankName);
                    ("bankCode", bankCode);
                    ("cardType", cardType);
                    ("cardAssociation", cardAssociation);
                    ("options", PList options)])
           else failure
         else failure)
  | loc => Raise (Other (RequestValidationError loc))
  end.

Definition refund_payment (request : RefundRequest) : exc pyval :=
  guarded
    (let iyzico_request := refund_request now request in
     result <- call_processor Refund_create iyzico_request ;;
     status <- py_get result "status" PNone ;;
     if eq_str status "success" then
       refundId <- py_get result "paymentTransactionId" PNone ;;
       price <- py_get result "price" (PInt 0) ;;
       refundedAmount <- py_float price ;;
       Ok (PDict
             [("success", PBool true);
              ("refundId", refundId);
              ("refundedAmount", PFloat refundedAmount)])
     else raise_failure result "refund_failed" "Refund failed").

Definition get_payment_status (payment_id : string) : exc pyval :=
  guarded
    (let iyzico_request :=
       [("locale", PStr "tr");
        ("conversationId", PStr (str_int now));
        ("paymentId", PStr payment_id)] in
     result <- call_processor Payment_retrieve iyzico_request ;;
     status <- py_get result "status" PNone ;;
     if eq_str status "success" then
       paymentStatus <- py_get result "paymentStatus" PNone ;;
       Ok (PDict
             [("success", PBool true);
              ("status",
                PStr (if eq_str paymentStatus "1" then "success"
                      else "pending"))])
     else raise_failure result "status_check_failed" "Status check failed").

Definition saved_card (card : pyval) : exc pyval :=
  cardToken <- py_get card "cardToken" PNone ;;
  cardAlias <- py_get card "cardAlias" PNone ;;
  binNumber <- py_get card "binNumber" PNone ;;
  lastFourDigits <- py_get card "lastFourDigits" PNone ;;
  cardType <- py_get card "cardType" PNone ;;
  cardAssociation <- py_get card "cardAssociation" PNone ;;
  Ok (PDict
        [("cardToken", cardToken);
         ("cardAlias", cardAlias);
         ("binNumber", binNumber);
         ("lastFourDigits", lastFourDigits);
         ("cardType", cardType);
         ("cardAssociation", cardAssociation)]).

Definition list_saved_cards (cardUserKey : string) : exc pyval :=
  guarded
    (let iyzico_request :=
       [("locale", PStr "tr");
        ("conversationId", PStr (str_int now));
        ("cardUserKey", PStr cardUserKey)] in
     result <- call_processor CardList_retrieve iyzico_request ;;
     status <- py_get result "status" PNone ;;
     if eq_str status "success" then
       cardDetails <- py_get result "cardDetails" (PList []) ;;
       cardDetails <- py_iter cardDetails ;;
       cards <- mapM saved_card cardDetails ;;
       Ok (PDict [("success", PBool true); ("cards", PList cards)])
     else raise_failure result "cards_list_failed" "Failed to list cards").

Definition charge_saved_card (request : ChargeRequest) : exc pyval :=
  guarded
    (let iyzico_request := charge_request request in
     result <- call_processor Payment_create iyzico_request ;;
     respond result).

Definition delete_saved_card (card_token cardUserKey : string)
  : exc pyval :=
  guarded
    (let iyzico_request :=
       [("locale", PStr "tr");
        ("conversationId", PStr (str_int now));
        ("cardToken", PStr card_token);
        ("cardUserKey", PStr cardUserKey)] in
     result <- call_processor Card_delete iyzico_request ;;
     status <- py_get result "status" PNone ;;
     if eq_str status "success" then Ok (PDict [("success", PBool true)])
     else raise_failure result "card_delete_failed" "Failed to delete card").

End Endpoints.

(** ** Predicates used in the statements *)

(** A decimal digit. *)
Definition digit (c : ascii) : Prop := is_digit c = true.

(** Neither white space nor an underscore: what [repr] prints is made of
    such characters. *)
Definition plain (c : ascii) : Prop :=
  is_space c = false /\ is_underscore c = false.

Definition sign_char (neg : bool) : ascii :=
  if neg then "-"%char else "+"%char.

(** The request with its [paidPrice] left out. *)
Definition without_paid_price (req : PaymentRequest) : PaymentRequest :=
  {| orderId := orderId req; amount := amount req; paidPrice := None;
     currency := currency req; installment := installment req;
     card := card req; buyer := buyer req; basketItems := basketItems req;
     callbackUrl := callbackUrl req |}.

(** The optional fields of a success response other than the two amounts. *)
Definition success_fields : list string :=
  ["installment"; "cardType"; "cardAssociation"; "binNumber"; "lastFourDigits"].

(** A success result of the processor that echoes the [price] and
    [paidPrice] of a payload. *)
Definition synthetic_success (payload : pydict) : pydict :=
  [("status", PStr "success");
   ("price", get_default payload "price" PNone);
   ("paidPrice", get_default payload "paidPrice" PNone)].

(** A field of the body of the [HTTPException] a handler ends with. *)
Definition error_field (r : exc pyval) (k : string) : option pyval :=
  match r with
  | Raise (HTTPException _ (PDict e)) => dict_get k e
  | _ => None
  end.

Definition is_failure_envelope (v : pyval) : Prop :=
  exists errorCode errorMessage : pyval,
    v = failure_envelope errorCode errorMessage.

(** A handler outcome is either a response or an [HTTPException], with
    status 400 or 500, whose detail is a failure envelope. *)
Definition error_shape (r : exc pyval) : Prop :=
  match r with
  | Ok _ => True
  | Raise (HTTPException status d) =>
      (status = 400 \/ status = 500) /\ is_failure_envelope d
  | Raise (Other _) => False
  end.

(** Inside a handler: an [HTTPException], if any, is a 400 that carries an
    envelope. *)
Definition well_shaped (r : exc pyval) : Prop :=
  match r with
  | Raise (HTTPException status d) => status = 400 /\ is_failure_envelope d
  | _ => True
  end.

(** A computation that raises no [HTTPException]. *)
Definition quiet {A : Type} (m : exc A) : Prop :=
  match m with
  | Raise (HTTPException _ _) => False
  | _ => True
  end.

(** ** Sample data *)

Definition hundred : float := FNum false 7036874417766400 (-46).

Definition sample_card : CardInfo :=
  {| cardHolderName := "Ada Lovelace"; cardNumber := "5528790000000008";
     expireMonth := "12"; expireYear := "30"; cvc := "123";
     registerCard := false |}.

Definition sample_buyer : BuyerInfo :=
  {| buyer_id := "B1"; buyer_name := "Ada"; surname := "Lovelace";
     email := "ada@example.com"; phone := "+905350000000"; ip := "85.34.78.112";
     city := "Istanbul"; country := "Turkey"; address := "Nidakule Goztepe";
     identityNumber := None |}.

Definition sample_item (kind : string) : BasketItem :=
  {| item_id := "I1"; item_name := "Book"; category := "Books";
     price := hundred; itemType := kind |}.

Definition sample_request (paid : option float) : PaymentRequest :=
  {| orderId := "ORD1"; amount := hundred; paidPrice := paid;
     currency := "tryLira"; installment := 1; card := sample_card;
     buyer := sample_buyer; basketItems := [sample_item "physical"];
     callbackUrl := None |}.

Definition sample_refund : RefundRequest :=
  {| refund_transactionId := "TX1"; refund_amount := hundred |}.

(** A rejection by the processor. *)
Definition declined : pyval :=
  PDict [("status", PStr "failure"); ("errorCode", PStr "5006");
         ("errorMessage", PStr "Invalid card")].

(** A processor that answers every call with the same value. *)
Definition answers (v : pyval) : sdk_call -> pydict -> pyval + pyerror :=
  fun _ _ => inl v.

Definition no_json : string -> pyval + pyerror :=
  fun s => inr (Raised "Expecting value").

Definition message_of (e : pyerror) : string :=
  match e with
  | Raised msg => msg
  | _ => "error"
  end.

(** ** Further payloads and views *)

(** [d[k1][k2]] when both keys are there. *)
Definition dict_path (d : pydict) (k1 k2 : string) : option pyval :=
  match dict_get k1 d with
  | Some (PDict d') => dict_get k2 d'
  | _ => None
  end.

(** The payloads that the other handlers build in place. *)

Definition init_3ds_request (request : PaymentRequest) : pydict :=
  dict_set "callbackUrl" (opt_str (callbackUrl request))
    (map_payment_request request).

Definition status_request (now : Z) (payment_id : string) : pydict :=
  [("locale", PStr "tr");
   ("conversationId", PStr (str_int now));
   ("paymentId", PStr payment_id)].

Definition cards_request (now : Z) (cardUserKey : string) : pydict :=
  [("locale", PStr "tr");
   ("conversationId", PStr (str_int now));
   ("cardUserKey", PStr cardUserKey)].

Definition delete_request (now : Z) (card_token cardUserKey : string) : pydict :=
  [("locale", PStr "tr");
   ("conversationId", PStr (str_int now));
   ("cardToken", PStr card_token);
   ("cardUserKey", PStr cardUserKey)].

(** The payment request that charges the same order with a card given in
    full, in the default currency and in one installment. *)
Definition payment_of_charge (request : ChargeRequest) (c : CardInfo)
  : PaymentRequest :=
  {| orderId := charge_orderId request; amount := charge_amount request;
     paidPrice := None; currency := "tryLira"; installment := 1; card := c;
     buyer := charge_buyer request;
     basketItems := charge_basketItems request; callbackUrl := None |}.

(** The entry of [list_saved_cards] for one card of the processor. *)
Definition card_view (card : pydict) : pyval :=
  PDict
    [("cardToken", get_default card "cardToken" PNone);
     ("cardAlias", get_default card "cardAlias" PNone);
     ("binNumber", get_default card "binNumber" PNone);
     ("lastFourDigits", get_default card "lastFourDigits" PNone);
     ("cardType", get_default card "cardType" PNone);
     ("cardAssociation", get_default card "cardAssociation" PNone)].

(** The detail of the 500 raised for an exception with message [msg]. *)
Definition server_error (msg : string) : pyval :=
  failure_envelope (PStr "server_error") (PStr msg).

(** The 400 raised for a result [d] that is not a success, with the
    handler's own defaults. *)
Definition rejection (d : pydict) (code message : string) : exc pyval :=
  Raise (HTTPException 400
           (failure_envelope (get_default d "errorCode" (PStr code))
              (get_default d "errorMessage" (PStr message)))).

(** The processor's answer as a handler sees it: the value read from the
    SDK, decoded first when it comes as a string. *)
Definition processor_answers (iyzipay : sdk_call -> pydict -> pyval + pyerror)
    (json_loads : string -> pyval + pyerror)
    (call : sdk_call) (request : pydict) (v : pyval) : Prop :=
  (iyzipay call request = inl v /\ forall s, v <> PStr s) \/
  (exists s, iyzipay call request = inl (PStr s) /\ json_loads s = inl v).

(** The exception met on the way to an answer: raised by the SDK, or by the
    decoding of a string body. *)
Definition processor_fails (iyzipay : sdk_call -> pydict -> pyval + pyerror)
    (json_loads : string -> pyval + pyerror)
    (call : sdk_call) (request : pydict) (e : pyerror) : Prop :=
  iyzipay call request = inr e \/
  (exists s, iyzipay call request = inl (PStr s) /\ json_loads s = inr e).

(** A result whose status is "success". *)
Definition is_success (d : pydict) : bool :=
  eq_str (get_default d "status" PNone) "success".

(** A returned body that says [success: True]. *)
Definition returns_success (r : exc pyval) : Prop :=
  match r with
  | Ok (PDict d) => dict_get "success" d = Some (PBool true)
  | Ok _ => False
  | Raise _ => True
  end.

(** A 400 carries an envelope, a 500 the [server_error] envelope. *)
Definition status_shape (r : exc pyval) : Prop :=
  match r with
  | Raise (HTTPException status d) =>
      (status = 400 /\ is_failure_envelope d) \/
      (status = 500 /\ exists msg, d = server_error msg)
  | _ => True
  end.

(** ** More sample data *)

Definition sample_charge : ChargeRequest :=
  {| cardToken := "tok"; cardUserKey := "key"; charge_orderId := "ORD1";
     charge_amount := hundred; charge_buyer := sample_buyer;
     charge_basketItems := [sample_item "physical"] |}.

(** A decoder that reads every string as the same value. *)
Definition decodes_to (v : pyval) : string -> pyval + pyerror :=
  fun _ => inl v.

(** A processor that cannot be reached. *)
Definition unreachable : sdk_call -> pydict -> pyval + pyerror :=
  fun _ _ => inr (Raised "connection refused").

Definition sample_price : pydict :=
  [("installmentNumber", PInt 3);
   ("installmentPrice", PFloat hundred);
   ("totalPrice", PFloat hundred)].

Definition sample_detail : pydict :=
  [("binNumber", PStr "552879"); ("bankName", PStr "Bank");
   ("installmentPrices", PList [PDict sample_price])].

Definition installments_found : pydict :=
  [("status", PStr "success");
   ("installmentDetails", PList [PDict sample_detail; PNone])].

Definition stored_card : pydict :=
  [("cardToken", PStr "tok"); ("lastFourDigits", PStr "0008")].

Definition cards_found (entries : list pyval) : pydict :=
  [("status", PStr "success"); ("cardDetails", PList entries)].

(** * Properties *)

(** ** Floats: reading back what [repr] prints

    [float (str x) = x] for every float [x].  The reader rounds a decimal to
    the nearest float; a ratio that lies strictly inside the rounding
    interval of [m * 2^e] is rounded to it ([round_ratio_inside]).  The
    printer keeps the first decimal that reads back, and with 17 significant
    digits the nearest decimal always does, since [2^53 < 10^16]
    ([seventeen_digits]).  The layout chosen by [format_repr] is read by
    [parse_decimal] as a decimal of the same value ([parse_format_repr]). *)

Lemma round_even_inside (N D M : Z) :
  0 < D -> (2 * M - 1) * D < 2 * N -> 2 * N < (2 * M + 1) * D ->
  round_even N D = M.
Proof.
  intros HD Hlo Hhi; unfold round_even.
  pose proof (Z.div_mod N D ltac:(lia)) as E.
  pose proof (Z.mod_pos_bound N D HD) as R.
  set (q := N / D) in *; set (r := N mod D) in *.
  destruct (Z.compare_spec (2 * r) D) as [C | C | C].
  - exfalso. assert (2 * N = (2 * q + 1) * D) by lia.
    assert (2 * M - 1 < 2 * q + 1) by nia.
    assert (2 * q + 1 < 2 * M + 1) by nia. lia.
  - assert (q <= M) by nia. assert (M <= q) by nia. lia.
  - assert (q + 1 <= M) by nia. assert (M <= q + 1) by nia. lia.
Qed.

Lemma round_even_near (N D : Z) :
  0 < D ->
  2 * (round_even N D * D) <= 2 * N + D /\ 2 * N <= 2 * (round_even N D * D) + D.
Proof.
  intros HD; unfold round_even.
  pose proof (Z.div_mod N D ltac:(lia)) as E.
  pose proof (Z.mod_pos_bound N D HD) as R.
  set (q := N / D) in *; set (r := N mod D) in *.
  destruct (Z.compare_spec (2 * r) D) as [C | C | C];
    [destruct (Z.even q)| |]; nia.
Qed.

Lemma log2_between (T a : Z) :
  0 <= a -> 2 ^ a <= T -> T < 2 ^ (a + 1) -> Z.log2 T = a.
Proof. intros; apply Z.log2_unique; lia. Qed.

Lemma div_between (N d lo hi : Z) :
  0 < d -> lo * d <= N -> N < hi * d -> lo <= N / d /\ N / d < hi.
Proof.
  intros Hd Hlo Hhi; split.
  - apply Z.div_le_lower_bound; lia.
  - apply Z.div_lt_upper_bound; lia.
Qed.

(** A ratio strictly inside the rounding interval of a float is rounded to
    that float.  The interval reaches half a unit in the last place on both
    sides, and a quarter only below a power of two. *)
Lemma round_ratio_inside (neg : bool) (n d : Z) (m : positive) (e : Z) :
  0 < n -> 0 < d ->
  float_valid (FNum neg m e) = true ->
  2 * (n * 2 ^ 1074) < (2 * Z.pos m + 1) * (d * 2 ^ (e - emin)) ->
  (if (Z.pos m =? 2 ^ 52) && (emin <? e)
   then (4 * Z.pos m - 1) * (d * 2 ^ (e - emin)) < 4 * (n * 2 ^ 1074)
   else (2 * Z.pos m - 1) * (d * 2 ^ (e - emin)) < 2 * (n * 2 ^ 1074)) ->
  round_ratio neg n d = FNum neg m e.
Proof.
  intros Hn Hd Hv Hhi Hlo.
  unfold float_valid in Hv.
  apply andb_prop in Hv as [Hv Hsub].
  apply andb_prop in Hv as [Hv Hemax].
  apply andb_prop in Hv as [Hm Hemin].
  apply Z.ltb_lt in Hm. apply Z.leb_le in Hemin, Hemax.
  unfold round_ratio.
  destruct (Z.leb_spec n 0) as [|_]; [lia|].
  cbv zeta.
  assert (HB : 0 < 2 ^ 1074) by (apply Z.pow_pos_nonneg; lia).
  set (B := 2 ^ 1074) in *. clearbody B.
  set (N := n * B) in *.
  assert (HN : 0 < N) by (unfold N; nia).
  set (st := e - emin) in *.
  assert (Hst : 0 <= st) by (unfold st; lia).
  assert (HP : 0 < 2 ^ st) by (apply Z.pow_pos_nonneg; lia).
  assert (Ee : e = st + emin) by (unfold st; lia).
  destruct ((Z.pos m =? 2 ^ 52) && (emin <? e)) eqn:Hb;
    [destruct (Z_lt_le_dec N (2 ^ 52 * (d * 2 ^ st))) as [Hbelow | Habove]|].
  - (* just below a power of two *)
    apply andb_prop in Hb as [Hm52 He]. apply Z.eqb_eq in Hm52.
    apply Z.ltb_lt in He.
    assert (Hst1 : 1 <= st) by (unfold st; lia).
    assert (EP : 2 ^ st = 2 * 2 ^ (st - 1)).
    { replace st with (1 + (st - 1)) at 1 by lia.
      rewrite Z.pow_add_r by lia. reflexivity. }
    assert (HP' : 0 < 2 ^ (st - 1)) by (apply Z.pow_pos_nonneg; lia).
    set (P' := 2 ^ (st - 1)) in *.
    assert (EL : Z.log2 (N / d) = 52 + (st - 1)).
    { apply log2_between; [lia| |].
      - rewrite Z.pow_add_r by lia. fold P'.
        apply Z.div_le_lower_bound; [lia|]. rewrite Hm52 in Hlo. rewrite EP in Hlo. nia.
      - replace (52 + (st - 1) + 1) with (53 + (st - 1)) by lia.
        rewrite Z.pow_add_r by lia. fold P'.
        apply Z.div_lt_upper_bound; [lia|]. rewrite EP in Hbelow. nia. }
    rewrite EL.
    replace (Z.max (52 + (st - 1) - 52) 0) with (st - 1) by lia.
    fold P'.
    assert (EM : round_even N (d * P') = 2 ^ 53).
    { apply round_even_inside; [nia| |].
      - rewrite Hm52, EP in Hlo. nia.
      - rewrite EP in Hbelow. nia. }
    rewrite EM. rewrite Z.eqb_refl. cbn [fst snd].
    replace (st - 1 + 1 + emin) with e by lia.
    destruct (Z.leb_spec e emax); [|lia].
    change (2 ^ 52) with (Z.pos 4503599627370496) in *.
    congruence.
  - (* the mantissa is [2^52] and the ratio is not below the float *)
    apply andb_prop in Hb as [Hm52 He]. apply Z.eqb_eq in Hm52.
    apply Z.ltb_lt in He.
    assert (EL : Z.log2 (N / d) = 52 + st).
    { apply log2_between; [lia| |].
      - rewrite Z.pow_add_r by lia.
        apply Z.div_le_lower_bound; [lia|]. nia.
      - replace (52 + st + 1) with (53 + st) by lia.
        rewrite Z.pow_add_r by lia.
        apply Z.div_lt_upper_bound; [lia|]. rewrite Hm52 in Hhi. nia. }
    rewrite EL. replace (Z.max (52 + st - 52) 0) with st by lia.
    assert (EM : round_even N (d * 2 ^ st) = Z.pos m).
    { apply round_even_inside; [nia| |]; [rewrite Hm52|]; nia. }
    rewrite EM.
    destruct (Z.eqb_spec (Z.pos m) (2 ^ 53)); [lia|]. cbn [fst snd].
    rewrite <- Ee. destruct (Z.leb_spec e emax); [reflexivity|lia].
  - (* the general case *)
    assert (Es : Z.max (Z.log2 (N / d) - 52) 0 = st).
    { apply orb_prop in Hsub as [H52 | H0].
      - apply Z.leb_le in H52.
        assert (H52' : 2 ^ 52 < Z.pos m \/ st = 0).
        { apply andb_false_iff in Hb as [Hb | Hb].
          - apply Z.eqb_neq in Hb. lia.
          - apply Z.ltb_ge in Hb. right. unfold st. lia. }
        destruct H52' as [H52' | H0].
        + rewrite (log2_between (N / d) (52 + st)); [lia|lia| |].
          * rewrite Z.pow_add_r by lia.
            apply Z.div_le_lower_bound; [lia|]. nia.
          * replace (52 + st + 1) with (53 + st) by lia.
            rewrite Z.pow_add_r by lia.
            apply Z.div_lt_upper_bound; [lia|]. nia.
        + rewrite H0 in *. change (2 ^ 0) with 1 in *.
          assert (N / d < 2 ^ 53) by (apply Z.div_lt_upper_bound; nia).
          assert (0 <= N / d) by (apply Z.div_pos; lia).
          destruct (Z.eq_dec (N / d) 0) as [E0 | E0]; [rewrite E0; reflexivity|].
          assert (Z.log2 (N / d) < 53) by (apply Z.log2_lt_pow2; lia).
          lia.
      - apply Z.eqb_eq in H0.
        assert (st = 0) as H0' by (unfold st; lia).
        rewrite H0' in *. change (2 ^ 0) with 1 in *.
        assert (N / d < 2 ^ 53) by (apply Z.div_lt_upper_bound; nia).
        assert (0 <= N / d) by (apply Z.div_pos; lia).
        destruct (Z.eq_dec (N / d) 0) as [E0 | E0]; [rewrite E0; reflexivity|].
        assert (Z.log2 (N / d) < 53) by (apply Z.log2_lt_pow2; lia).
        lia. }
    rewrite Es.
    assert (EM : round_even N (d * 2 ^ st) = Z.pos m).
    { apply round_even_inside; [nia| |]; nia. }
    rewrite EM.
    destruct (Z.eqb_spec (Z.pos m) (2 ^ 53)); [lia|]. cbn [fst snd].
    rewrite <- Ee. destruct (Z.leb_spec e emax); [reflexivity|lia].
Qed.

Lemma cross_lt (n d n0 d0 X Y : Z) :
  0 < d -> 0 < d0 -> n * d0 = n0 * d -> X * n0 < Y * d0 -> X * n < Y * d.
Proof.
  intros Hd Hd0 E H.
  apply (Z.mul_lt_mono_pos_r d0); [lia|].
  replace (X * n * d0) with (X * n0 * d) by (rewrite <- !Z.mul_assoc, E; ring).
  replace (Y * d * d0) with (Y * d0 * d) by ring.
  apply Z.mul_lt_mono_pos_r; lia.
Qed.

Lemma cross_gt (n d n0 d0 X Y : Z) :
  0 < d -> 0 < d0 -> n * d0 = n0 * d -> Y * d0 < X * n0 -> Y * d < X * n.
Proof.
  intros Hd Hd0 E H.
  apply (Z.mul_lt_mono_pos_r d0); [lia|].
  replace (X * n * d0) with (X * n0 * d) by (rewrite <- !Z.mul_assoc, E; ring).
  replace (Y * d * d0) with (Y * d0 * d) by ring.
  apply Z.mul_lt_mono_pos_r; lia.
Qed.

(** A decimal as a ratio over a power of ten. *)
Lemma decimal_Q_ratio (c k s : Z) :
  0 <= s -> 0 <= k + s ->
  (decimal_Q c k == Qmake (c * 10 ^ (k + s)) (Z.to_pos (10 ^ s)))%Q.
Proof.
  intros Hs Hks.
  assert (H10 : forall a, 0 <= a -> 0 < 10 ^ a)
    by (intros; apply Z.pow_pos_nonneg; lia).
  unfold decimal_Q, Qeq.
  destruct (Z.leb_spec 0 k); cbn [Qnum Qden];
    rewrite !Z2Pos.id by (apply H10; lia).
  - rewrite Z.pow_add_r by lia. ring.
  - replace (10 ^ s) with (10 ^ (k + s) * 10 ^ (- k)).
    + ring.
    + rewrite <- Z.pow_add_r by lia. f_equal. lia.
Qed.

Lemma float_of_decimal_ratio (neg : bool) (c k n0 d0 : Z) (m : positive) (e : Z) :
  0 < n0 -> 0 < d0 ->
  (decimal_Q c k == Qmake n0 (Z.to_pos d0))%Q ->
  float_valid (FNum neg m e) = true ->
  2 * 2 ^ 1074 * n0 < (2 * Z.pos m + 1) * 2 ^ (e - emin) * d0 ->
  (if (Z.pos m =? 2 ^ 52) && (emin <? e)
   then (4 * Z.pos m - 1) * 2 ^ (e - emin) * d0 < 4 * 2 ^ 1074 * n0
   else (2 * Z.pos m - 1) * 2 ^ (e - emin) * d0 < 2 * 2 ^ 1074 * n0) ->
  float_of_decimal neg c k = FNum neg m e.
Proof.
  intros Hn0 Hd0 E Hv Hhi Hlo.
  unfold float_of_decimal. cbv zeta.
  pose proof (Qeq_trans _ _ _ (Qred_correct (decimal_Q c k)) E) as R.
  set (q := Qred (decimal_Q c k)) in *. clearbody q.
  unfold Qeq in R. cbn [Qnum Qden] in R.
  rewrite Z2Pos.id in R by exact Hd0.
  pose proof (Pos2Z.is_pos (Qden q)) as Hd.
  set (n := Qnum q) in *. set (d := Z.pos (Qden q)) in *.
  clearbody n d.
  assert (Hn : 0 < n) by nia.
  apply round_ratio_inside; auto.
  - set (B := 2 ^ 1074) in *. clearbody B.
    set (P := 2 ^ (e - emin)) in *. clearbody P.
    replace (2 * (n * B)) with (2 * B * n) by ring.
    replace ((2 * Z.pos m + 1) * (d * P)) with ((2 * Z.pos m + 1) * P * d) by ring.
    apply (cross_lt n d n0 d0); auto.
  - set (B := 2 ^ 1074) in *. clearbody B.
    set (P := 2 ^ (e - emin)) in *. clearbody P.
    destruct ((Z.pos m =? 2 ^ 52) && (emin <? e)).
    + replace (4 * (n * B)) with (4 * B * n) by ring.
      replace ((4 * Z.pos m - 1) * (d * P)) with ((4 * Z.pos m - 1) * P * d) by ring.
      apply (cross_gt n d n0 d0); auto.
    + replace (2 * (n * B)) with (2 * B * n) by ring.
      replace ((2 * Z.pos m - 1) * (d * P)) with ((2 * Z.pos m - 1) * P * d) by ring.
      apply (cross_gt n d n0 d0); auto.
Qed.

Lemma seventeen_arith (m B P T K c : Z) :
  0 < B -> 0 < P -> 0 < T -> 0 < K -> 0 < m -> m < 2 ^ 53 ->
  B * (K * 10 ^ 16) <= m * P * T ->
  2 * (c * (B * K)) <= 2 * (m * P * T) + B * K ->
  2 * (m * P * T) <= 2 * (c * (B * K)) + B * K ->
  0 < c /\
  2 * B * (c * K) < (2 * m + 1) * P * T /\
  (2 * m - 1) * P * T < 2 * B * (c * K) /\
  (m = 2 ^ 52 -> (4 * m - 1) * P * T < 4 * B * (c * K)).
Proof.
  intros HB HP HT HK Hm0 Hm H16 Hup Hdn.
  change (10 ^ 16) with 10000000000000000 in H16.
  change (2 ^ 53) with 9007199254740992 in Hm.
  change (2 ^ 52) with 4503599627370496.
  assert (HQ : 0 < P * T) by nia.
  assert (HD : 0 < B * K) by nia.
  assert (HmQ : m * (P * T) <= 9007199254740991 * (P * T))
    by (apply Z.mul_le_mono_nonneg_r; lia).
  replace (m * P * T) with (m * (P * T)) in * by ring.
  replace (2 * B * (c * K)) with (2 * (c * (B * K))) by ring.
  replace (4 * B * (c * K)) with (4 * (c * (B * K))) by ring.
  replace ((2 * m + 1) * P * T) with (2 * (m * (P * T)) + P * T) by ring.
  replace ((2 * m - 1) * P * T) with (2 * (m * (P * T)) - P * T) by ring.
  replace ((4 * m - 1) * P * T) with (4 * (m * (P * T)) - P * T) by ring.
  set (Q := P * T) in *. set (D := B * K) in *.
  replace (B * (K * 10000000000000000)) with (10000000000000000 * D) in H16
    by (unfold D; ring).
  set (cD := c * D) in *. set (mQ := m * Q) in *.
  assert (Hsmall : D < Q) by lia.
  repeat split.
  - assert (0 < cD) by lia. unfold cD in *. nia.
  - lia.
  - lia.
  - intro E. unfold mQ in *. rewrite E in *. lia.
Qed.

(** Seventeen significant digits, correctly rounded, read back. *)
Lemma seventeen_digits (m : positive) (e k : Z) :
  float_valid (FNum false m e) = true ->
  0 <= k ->
  2 ^ 1074 * 10 ^ (k + 16) <= Z.pos m * 2 ^ (e - emin) * 10 ^ decimal_shift ->
  float_of_decimal false
    (round_even (Z.pos m * 2 ^ (e - emin) * 10 ^ decimal_shift)
       (2 ^ 1074 * 10 ^ k))
    (k - decimal_shift)
  = FNum false m e.
Proof.
  intros Hv Hk H16.
  pose proof Hv as Hv'. unfold float_valid in Hv'.
  apply andb_prop in Hv' as [Hv' Hsub].
  apply andb_prop in Hv' as [Hv' Hemax].
  apply andb_prop in Hv' as [Hm Hemin].
  apply Z.ltb_lt in Hm. apply Z.leb_le in Hemin.
  assert (HB : 0 < 2 ^ 1074) by (apply Z.pow_pos_nonneg; lia).
  assert (HP : 0 < 2 ^ (e - emin)) by (apply Z.pow_pos_nonneg; lia).
  assert (HT : 0 < 10 ^ decimal_shift)
    by (apply Z.pow_pos_nonneg; unfold decimal_shift; lia).
  assert (HK : 0 < 10 ^ k) by (apply Z.pow_pos_nonneg; lia).
  rewrite Z.pow_add_r in H16 by lia.
  assert (HD : 0 < 2 ^ 1074 * 10 ^ k) by (apply Z.mul_pos_pos; assumption).
  destruct (round_even_near (Z.pos m * 2 ^ (e - emin) * 10 ^ decimal_shift)
              (2 ^ 1074 * 10 ^ k) HD) as [Hup Hdn].
  set (c := round_even _ _) in *. clearbody c.
  pose proof (seventeen_arith (Z.pos m) (2 ^ 1074) (2 ^ (e - emin))
                (10 ^ decimal_shift) (10 ^ k) c HB HP HT HK
                (Pos2Z.is_pos m) Hm H16 Hup Hdn)
    as (Hc & Hhi & Hlo & Hlo').
  apply (float_of_decimal_ratio false c (k - decimal_shift)
           (c * 10 ^ k) (10 ^ decimal_shift)); auto.
  - apply Z.mul_pos_pos; assumption.
  - rewrite (decimal_Q_ratio c (k - decimal_shift) decimal_shift);
      [|unfold decimal_shift; lia|lia].
    replace (k - decimal_shift + decimal_shift) with k by lia.
    reflexivity.
  - destruct ((Z.pos m =? 2 ^ 52) && (emin <? e)) eqn:Hb; [|exact Hlo].
    apply andb_prop in Hb as [Hm52 _]. apply Z.eqb_eq in Hm52.
    apply Hlo'; exact Hm52.
Qed.

Lemma float_eqb_num (y : float) (m : positive) (e : Z) :
  float_eqb y (FNum false m e) = true -> y = FNum false m e.
Proof.
  destruct y as [| b | b | b m' e']; cbn [float_eqb]; try discriminate.
  intro H. apply andb_prop in H as [H He]. apply andb_prop in H as [Hb Hm].
  apply Z.eqb_eq in He, Hm. destruct b; [discriminate|].
  congruence.
Qed.

Lemma scan_log10_below (fuel : nat) (N d k : Z) :
  d * 10 ^ k <= N ->
  d * 10 ^ scan_log10 fuel N d k <= N /\ k <= scan_log10 fuel N d k.
Proof.
  revert k; induction fuel as [|f IH]; intros k H; simpl; [lia|].
  destruct (Z.leb_spec (d * 10 ^ (k + 1)) N) as [H1 | H1]; [|lia].
  destruct (IH (k + 1) H1); lia.
Qed.

Lemma shortest_from_reads_back (steps : nat) (m : positive) (e k : Z) :
  float_valid (FNum false m e) = true ->
  0 <= k - Z.of_nat steps ->
  2 ^ 1074 * 10 ^ (k - Z.of_nat steps + 16)
  <= Z.pos m * 2 ^ (e - emin) * 10 ^ decimal_shift ->
  let ck :=
    shortest_from steps (FNum false m e)
      (Z.pos m * 2 ^ (e - emin) * 10 ^ decimal_shift) (2 ^ 1074) k in
  float_of_decimal false (fst ck) (snd ck - decimal_shift) = FNum false m e.
Proof.
  intros Hv. revert k.
  induction steps as [|s IH]; intros k Hk H16; cbv zeta.
  - cbn [shortest_from fst snd].
    replace (k - Z.of_nat 0) with k in * by lia.
    apply seventeen_digits; auto.
  - cbn [shortest_from].
    set (x := FNum false m e) in *.
    set (N := Z.pos m * 2 ^ (e - emin) * 10 ^ decimal_shift) in *.
    set (D := 2 ^ 1074 * 10 ^ k) in *.
    destruct (float_eqb (float_of_decimal false (round_even N D)
                           (k - decimal_shift)) x) eqn:E1;
      [apply float_eqb_num; exact E1|].
    destruct (float_eqb (float_of_decimal false (N / D)
                           (k - decimal_shift)) x) eqn:E2;
      [apply float_eqb_num; exact E2|].
    destruct (float_eqb (float_of_decimal false (N / D + 1)
                           (k - decimal_shift)) x) eqn:E3;
      [apply float_eqb_num; exact E3|].
    apply IH.
    + rewrite Nat2Z.inj_succ in Hk. lia.
    + rewrite Nat2Z.inj_succ in H16.
      replace (k - 1 - Z.of_nat s + 16) with (k - Z.succ (Z.of_nat s) + 16) by lia.
      exact H16.
Qed.

Lemma decimal_Q_same (c k c' k' s : Z) :
  0 <= s -> 0 <= k + s -> 0 <= k' + s ->
  c * 10 ^ (k + s) = c' * 10 ^ (k' + s) ->
  (decimal_Q c k == decimal_Q c' k')%Q.
Proof.
  intros Hs Hk Hk' E.
  rewrite (decimal_Q_ratio c k s), (decimal_Q_ratio c' k' s) by assumption.
  rewrite E. reflexivity.
Qed.

Lemma float_of_decimal_same (neg : bool) (c k c' k' s : Z) :
  0 <= s -> 0 <= k + s -> 0 <= k' + s ->
  c * 10 ^ (k + s) = c' * 10 ^ (k' + s) ->
  float_of_decimal neg c k = float_of_decimal neg c' k'.
Proof.
  intros Hs Hk Hk' E. unfold float_of_decimal.
  rewrite (Qred_complete _ _ (decimal_Q_same c k c' k' s Hs Hk Hk' E)).
  reflexivity.
Qed.

Lemma strip_zeros_same (neg : bool) (fuel : nat) (c k : Z) :
  float_of_decimal neg (fst (strip_zeros fuel c k)) (snd (strip_zeros fuel c k))
  = float_of_decimal neg c k.
Proof.
  revert c k; induction fuel as [|f IH]; intros c k; simpl; [reflexivity|].
  destruct ((c mod 10 =? 0) && (0 <? c)) eqn:E; [|reflexivity].
  apply andb_prop in E as [E0 _]. apply Z.eqb_eq in E0.
  rewrite IH.
  apply (float_of_decimal_same neg (c / 10) (k + 1) c k (Z.abs k + 1));
    try lia.
  replace (k + 1 + (Z.abs k + 1)) with (1 + (k + (Z.abs k + 1))) by lia.
  rewrite Z.pow_add_r by lia.
  rewrite (Z.div_mod c 10) at 2 by lia. rewrite E0.
  change (10 ^ 1) with 10. ring.
Qed.

Lemma strip_zeros_pos (fuel : nat) (c k : Z) :
  0 < c -> 0 < fst (strip_zeros fuel c k).
Proof.
  revert c k; induction fuel as [|f IH]; intros c k Hc; simpl; [exact Hc|].
  destruct ((c mod 10 =? 0) && (0 <? c)) eqn:E; [|exact Hc].
  apply andb_prop in E as [E0 _]. apply Z.eqb_eq in E0.
  apply IH.
  pose proof (Z.div_mod c 10 ltac:(lia)). lia.
Qed.

Lemma float_of_decimal_pos (neg : bool) (c k : Z) (b : bool) (m : positive) (e : Z) :
  float_of_decimal neg c k = FNum b m e -> 0 < c.
Proof.
  unfold float_of_decimal; cbv zeta. intro H.
  destruct (Z_lt_le_dec 0 c) as [|Hc]; [assumption|exfalso].
  pose proof (Qred_correct (decimal_Q c k)) as R.
  set (q := Qred (decimal_Q c k)) in *. clearbody q.
  assert (Hq : Qnum (decimal_Q c k) <= 0).
  { unfold decimal_Q. destruct (0 <=? k) eqn:Ek; cbn [Qnum]; [|exact Hc].
    apply Z.leb_le in Ek.
    assert (0 < 10 ^ k) by (apply Z.pow_pos_nonneg; lia). nia. }
  unfold Qeq in R.
  assert (Qnum q <= 0).
  { pose proof (Pos2Z.is_pos (Qden q)). pose proof (Pos2Z.is_pos (Qden (decimal_Q c k))).
    nia. }
  unfold round_ratio in H.
  destruct (Z.leb_spec (Qnum q) 0); [discriminate|lia].
Qed.

Lemma scan_start (m : positive) (e : Z) :
  emin <= e ->
  2 ^ 1074 * 10 ^ 16 <= Z.pos m * 2 ^ (e - emin) * 10 ^ decimal_shift.
Proof.
  intro He.
  assert (H : 2 ^ 1074 * 10 ^ 16 <= 10 ^ decimal_shift)
    by (apply Z.leb_le; vm_compute; reflexivity).
  assert (HP : 0 < 2 ^ (e - emin)) by (apply Z.pow_pos_nonneg; lia).
  assert (HT : 0 < 10 ^ decimal_shift)
    by (apply Z.pow_pos_nonneg; unfold decimal_shift; lia).
  set (T := 10 ^ decimal_shift) in *. set (L := 2 ^ 1074 * 10 ^ 16) in *.
  clearbody T L.
  assert (1 * T <= Z.pos m * 2 ^ (e - emin) * T).
  { apply Z.mul_le_mono_nonneg_r; [lia|].
    pose proof (Pos2Z.is_pos m). nia. }
  lia.
Qed.

(** The digits printed for a float read back as that float. *)
Lemma shortest_decimal_reads_back (m : positive) (e : Z) :
  float_valid (FNum false m e) = true ->
  float_of_decimal false (fst (shortest_decimal m e)) (snd (shortest_decimal m e))
  = FNum false m e /\
  0 < fst (shortest_decimal m e).
Proof.
  intro Hv.
  assert (He : emin <= e).
  { unfold float_valid in Hv.
    apply andb_prop in Hv as [Hv _]. apply andb_prop in Hv as [Hv _].
    apply andb_prop in Hv as [_ Hv]. apply Z.leb_le in Hv. exact Hv. }
  unfold shortest_decimal; cbv zeta.
  set (N := Z.pos m * 2 ^ (e - emin) * 10 ^ decimal_shift).
  destruct (scan_log10_below 640 N (2 ^ 1074) 16 (scan_start m e He))
    as [HK HK16].
  set (K := scan_log10 640 N (2 ^ 1074) 16) in *.
  pose proof (shortest_from_reads_back 16 m e K Hv) as R.
  cbv zeta in R. fold N in R.
  assert (R' := R ltac:(simpl; lia)
                  ltac:(replace (K - Z.of_nat 16 + 16) with K by (simpl; lia);
                        exact HK)).
  set (ck := shortest_from 16 (FNum false m e) N (2 ^ 1074) K) in *.
  split.
  - rewrite strip_zeros_same. exact R'.
  - apply strip_zeros_pos. apply (float_of_decimal_pos _ _ _ _ _ _ R').
Qed.

Lemma round_ratio_sign (neg : bool) (n d : Z) (m : positive) (e : Z) :
  round_ratio false n d = FNum false m e -> round_ratio neg n d = FNum neg m e.
Proof.
  unfold round_ratio.
  destruct (n <=? 0); [discriminate|]. cbv zeta.
  set (ms := if _ =? _ then _ else _). clearbody ms.
  destruct (fst ms); try discriminate.
  destruct (snd ms + emin <=? emax); [|discriminate].
  intro H; injection H as -> ->. reflexivity.
Qed.

Lemma float_of_decimal_sign (neg : bool) (c k : Z) (m : positive) (e : Z) :
  float_of_decimal false c k = FNum false m e ->
  float_of_decimal neg c k = FNum neg m e.
Proof. unfold float_of_decimal; apply round_ratio_sign. Qed.

(** *** Characters *)

Lemma digit_code (c : ascii) : digit c -> 48 <= code c <= 57.
Proof.
  unfold digit, is_digit; intro H.
  apply andb_prop in H as [H1 H2]. apply Z.leb_le in H1, H2. lia.
Qed.

Lemma digit_char_spec (d : Z) :
  0 <= d <= 9 -> digit (digit_char d) /\ digit_val (digit_char d) = d.
Proof.
  intro H.
  assert (E : d = 0 \/ d = 1 \/ d = 2 \/ d = 3 \/ d = 4 \/ d = 5 \/ d = 6
              \/ d = 7 \/ d = 8 \/ d = 9) by lia.
  repeat (destruct E as [-> | E]; [split; reflexivity|]).
  subst; split; reflexivity.
Qed.

Lemma code_neq (a b : ascii) : code a <> code b -> Ascii.eqb a b = false.
Proof.
  intro H. destruct (Ascii.eqb_spec a b); [subst; contradiction | reflexivity].
Qed.

Ltac by_code :=
  unfold plain, is_space, is_underscore, is_exp, is_dot,
    is_minus, is_plus;
  repeat match goal with
         | |- _ /\ _ => split
         | |- context [?a <=? ?b] => destruct (Z.leb_spec a b); try lia
         | |- context [?a =? ?b] => destruct (Z.eqb_spec a b); try lia
         end; try reflexivity.

Lemma digit_plain (c : ascii) : digit c -> plain c.
Proof. intro H; apply digit_code in H; by_code. Qed.

Lemma digit_not_exp (c : ascii) : digit c -> is_exp c = false.
Proof. intro H; apply digit_code in H; by_code. Qed.

Lemma digit_not_dot (c : ascii) : digit c -> is_dot c = false.
Proof. intro H; apply digit_code in H; by_code. Qed.

Lemma digit_not_sign (c : ascii) :
  digit c -> is_minus c = false /\ is_plus c = false.
Proof. intro H; apply digit_code in H; by_code. Qed.

Lemma digit_lower (c : ascii) : digit c -> lower c = c.
Proof.
  intro H; apply digit_code in H. unfold lower.
  destruct (Z.leb_spec 65 (code c)); [lia | reflexivity].
Qed.

(** *** Digit strings *)

Lemma digits_val_app (a : Z) (l1 l2 : list ascii) :
  digits_val a (l1 ++ l2)
  = match digits_val a l1 with
    | Some v => digits_val v l2
    | None => None
    end.
Proof.
  revert a; induction l1 as [|c l1 IH]; intro a; simpl; [reflexivity|].
  destruct (is_digit c); [apply IH | reflexivity].
Qed.

Lemma digits_val_zeros (a n : Z) :
  0 <= n -> digits_val a (zeros n) = Some (a * 10 ^ n).
Proof.
  intro Hn. unfold zeros.
  rewrite <- (Z2Nat.id n) at 2 by assumption.
  generalize (Z.to_nat n) as j. clear n Hn. intro j. revert a.
  induction j as [|j IH]; intro a.
  - simpl. f_equal. ring.
  - cbn [repeat digits_val]. change (is_digit "0") with true. cbv iota.
    rewrite IH. f_equal. rewrite Nat2Z.inj_succ, Z.pow_succ_r by lia.
    change (digit_val "0") with 0. ring.
Qed.

Lemma zeros_digits (n : Z) : Forall digit (zeros n).
Proof.
  unfold zeros. induction (Z.to_nat n); simpl; constructor; auto. reflexivity.
Qed.

Lemma zeros_length (n : Z) : 0 <= n -> Z.of_nat (List.length (zeros n)) = n.
Proof. intro H. unfold zeros. rewrite repeat_length. lia. Qed.

Lemma digits_fuel_spec (f : nat) (n : Z) (acc : list ascii) :
  0 <= n -> n < 2 ^ Z.of_nat (S f) ->
  exists l,
    digits_fuel (S f) n acc = l ++ acc /\ l <> [] /\ Forall digit l /\
    forall a, digits_val a l = Some (a * 10 ^ Z.of_nat (List.length l) + n).
Proof.
  revert n acc; induction f as [|f IH]; intros n acc Hn Hf.
  - change (2 ^ Z.of_nat 1) with 2 in Hf.
    cbn [digits_fuel]. destruct (Z.ltb_spec n 10); [|lia].
    exists [digit_char (n mod 10)].
    rewrite Z.mod_small by lia.
    destruct (digit_char_spec n ltac:(lia)) as [Hd Hv].
    repeat split; [discriminate | constructor; auto |].
    intro a. cbn [digits_val List.length]. rewrite Hd, Hv.
    f_equal. change (10 ^ Z.of_nat 1) with 10. ring.
  - remember (S f) as f' eqn:Ef. cbn [digits_fuel].
    pose proof (Z.mod_pos_bound n 10 ltac:(lia)) as Hr.
    destruct (digit_char_spec (n mod 10) ltac:(lia)) as [Hd Hv].
    destruct (Z.ltb_spec n 10) as [Hs | Hs].
    + exists [digit_char (n mod 10)].
      rewrite Z.mod_small in * by lia.
      repeat split; [discriminate | constructor; auto |].
      intro a. cbn [digits_val List.length]. rewrite Hd, Hv.
      f_equal. change (10 ^ Z.of_nat 1) with 10. ring.
    + assert (Hq : n / 10 < 2 ^ Z.of_nat f').
      { apply Z.div_lt_upper_bound; [lia|].
        rewrite Nat2Z.inj_succ, Z.pow_succ_r in Hf by lia. lia. }
      destruct (IH (n / 10) (digit_char (n mod 10) :: acc)
                  ltac:(apply Z.div_pos; lia) Hq)
        as (l & El & Hne & Hl & Hval).
      exists (l ++ [digit_char (n mod 10)]).
      rewrite El, <- app_assoc. repeat split.
      * destruct l; discriminate.
      * apply Forall_app; split; [assumption | constructor; auto].
      * intro a. rewrite digits_val_app, Hval.
        cbn [digits_val]. rewrite Hd, Hv. f_equal.
        rewrite length_app, Nat2Z.inj_add, Z.pow_add_r by lia.
        change (10 ^ Z.of_nat (List.length [digit_char (n mod 10)])) with 10.
        rewrite (Z.div_mod n 10) at 3 by lia. ring.
Qed.

Lemma digits_of_spec (n : Z) :
  0 <= n ->
  digits_of n <> [] /\ Forall digit (digits_of n) /\
  forall a,
    digits_val a (digits_of n)
    = Some (a * 10 ^ Z.of_nat (List.length (digits_of n)) + n).
Proof.
  intro Hn. unfold digits_of.
  destruct (digits_fuel_spec (Z.to_nat (Z.log2 n)) n [] Hn)
    as (l & El & Hne & Hl & Hval).
  - rewrite Nat2Z.inj_succ, Z2Nat.id by apply Z.log2_nonneg.
    destruct (Z.eq_dec n 0) as [-> | Hz]; [reflexivity|].
    apply Z.log2_spec; lia.
  - rewrite El, app_nil_r. auto.
Qed.

Lemma digits_of_val (n : Z) : 0 <= n -> digits_val 0 (digits_of n) = Some n.
Proof.
  intro Hn. destruct (digits_of_spec n Hn) as (_ & _ & H). rewrite H. reflexivity.
Qed.

(** *** The parser on what [repr] prints *)

Lemma lstrip_plain (l : list ascii) : Forall plain l -> lstrip l = l.
Proof.
  intro H; destruct H as [|c l [Hc _] _]; simpl; [reflexivity|].
  rewrite Hc; reflexivity.
Qed.

Lemma strip_plain (l : list ascii) : Forall plain l -> strip l = l.
Proof.
  intro H. unfold strip. rewrite (lstrip_plain l H).
  rewrite lstrip_plain by (apply Forall_rev; exact H).
  apply rev_involutive.
Qed.

Lemma remove_underscores_plain (l : list ascii) (b : bool) :
  Forall plain l -> remove_underscores b l = Some l.
Proof.
  intro H; revert b; induction H as [|c l [_ Hc] _ IH]; intro b; simpl;
    [reflexivity|].
  rewrite Hc, IH; reflexivity.
Qed.

Lemma split_at_none (p : ascii -> bool) (l : list ascii) :
  Forall (fun c => p c = false) l -> split_at p l = (l, None).
Proof.
  induction 1 as [|c l Hc _ IH]; simpl; [reflexivity|].
  rewrite Hc, IH; reflexivity.
Qed.

Lemma split_at_app (p : ascii -> bool) (a b : list ascii) (c : ascii) :
  Forall (fun c => p c = false) a -> p c = true ->
  split_at p (a ++ c :: b) = (a, Some b).
Proof.
  intros H Hc; induction H as [|x a Hx _ IH]; simpl.
  - rewrite Hc; reflexivity.
  - rewrite Hx, IH; reflexivity.
Qed.

Lemma digits_no_dot (l : list ascii) :
  Forall digit l -> Forall (fun c => is_dot c = false) l.
Proof. apply Forall_impl; exact digit_not_dot. Qed.

Lemma digits_no_exp (l : list ascii) :
  Forall digit l -> Forall (fun c => is_exp c = false) l.
Proof. apply Forall_impl; exact digit_not_exp. Qed.

Lemma digits_plain (l : list ascii) : Forall digit l -> Forall plain l.
Proof. apply Forall_impl; exact digit_plain. Qed.

Lemma nonempty_digits_val (l : list ascii) (v : Z) :
  l <> [] -> digits_val 0 l = Some v -> nonempty_digits l = Some v.
Proof. destruct l; [contradiction | auto]. Qed.

(** [digits . digits] *)
Lemma parse_fixed (I F : list ascii) (v : Z) :
  Forall digit I -> Forall digit F -> I <> [] ->
  digits_val 0 (I ++ F) = Some v ->
  parse_decimal (I ++ "."%char :: F) = Some (v, - Z.of_nat (List.length F)).
Proof.
  intros HI HF Hne Hv. unfold parse_decimal; cbv zeta.
  rewrite (split_at_none is_exp).
  - cbn [fst snd].
    rewrite (split_at_app is_dot I F "."%char (digits_no_dot I HI) eq_refl).
    cbn [fst snd].
    rewrite (nonempty_digits_val (I ++ F) v); [reflexivity | | exact Hv].
    destruct I; [contradiction | discriminate].
  - apply Forall_app; split; [apply digits_no_exp; exact HI|].
    constructor; [reflexivity | apply digits_no_exp; exact HF].
Qed.

Lemma split_sign_char (neg : bool) (l : list ascii) :
  split_sign (sign_char neg :: l) = (neg, l).
Proof. destruct neg; reflexivity. Qed.

(** [digits [. digits] e sign digits] *)
Lemma parse_exponent (I F E : list ascii) (neg : bool) (v ex : Z) :
  Forall digit I -> Forall digit F -> I <> [] ->
  digits_val 0 (I ++ F) = Some v ->
  E <> [] -> digits_val 0 E = Some ex ->
  parse_decimal
    (I ++ match F with [] => [] | a :: l => "."%char :: a :: l end
       ++ "e"%char :: sign_char neg :: E)
  = Some (v, (if neg then - ex else ex) - Z.of_nat (List.length F)).
Proof.
  intros HI HF Hne Hv HE Hex. unfold parse_decimal; cbv zeta.
  assert (Hm : Forall (fun c => is_exp c = false)
                 (I ++ match F with [] => [] | a :: l => "."%char :: a :: l end)).
  { apply Forall_app; split; [apply digits_no_exp; exact HI|].
    destruct F; [constructor|].
    constructor; [reflexivity | apply digits_no_exp; exact HF]. }
  rewrite app_assoc.
  rewrite (split_at_app is_exp _ (sign_char neg :: E) "e"%char Hm eq_refl).
  cbn [fst snd].
  assert (Hsp : split_at is_dot (I ++ match F with [] => [] | a :: l => "."%char :: a :: l end)
                = (I, match F with [] => None | _ => Some F end)).
  { destruct F as [|f F].
    - rewrite app_nil_r. apply split_at_none, digits_no_dot, HI.
    - apply (split_at_app is_dot I (f :: F) "."%char);
        [apply digits_no_dot, HI | reflexivity]. }
  rewrite Hsp. cbn [fst snd].
  replace (match match F with [] => None | _ :: _ => Some F end with
           | Some f => f
           | None => []
           end) with F by (destruct F; reflexivity).
  rewrite (nonempty_digits_val (I ++ F) v);
    [| destruct I; [contradiction | discriminate] | exact Hv].
  rewrite split_sign_char. cbn [fst snd].
  rewrite (nonempty_digits_val E ex HE Hex). reflexivity.
Qed.

Lemma pad2_spec (l : list ascii) :
  Forall digit l -> l <> [] ->
  Forall digit (pad2 l) /\ pad2 l <> [] /\ digits_val 0 (pad2 l) = digits_val 0 l.
Proof.
  intros H Hne. destruct l as [|c [|c' l]]; [contradiction | | auto].
  inversion H; subst. repeat split.
  - constructor; [reflexivity | assumption].
  - discriminate.
Qed.

Lemma digits_split (n : nat) (l : list ascii) :
  Forall digit l -> Forall digit (firstn n l) /\ Forall digit (skipn n l).
Proof.
  intro H. rewrite <- (firstn_skipn n l) in H. apply Forall_app in H. exact H.
Qed.

(** What [format_repr] prints is read as a decimal of the same value. *)
Lemma parse_format_repr (c decpt : Z) :
  0 < c ->
  let ds := digits_of c in
  let k := decpt - Z.of_nat (List.length ds) in
  exists c' k' s,
    parse_decimal (format_repr ds decpt) = Some (c', k') /\
    0 <= s /\ 0 <= k + s /\ 0 <= k' + s /\
    c' * 10 ^ (k' + s) = c * 10 ^ (k + s).
Proof.
  intros Hc ds k.
  destruct (digits_of_spec c ltac:(lia)) as (Hne & Hds & Hval).
  fold ds in Hne, Hds, Hval.
  assert (Hv0 : digits_val 0 ds = Some c) by (rewrite Hval; reflexivity).
  assert (Hlen : 0 < Z.of_nat (List.length ds)).
  { destruct ds; [contradiction | simpl; lia]. }
  unfold format_repr; cbv zeta. fold ds.
  destruct ((decpt <=? -4) || (16 <? decpt)) eqn:Hexp.
  - (* exponent notation *)
    set (ex := decpt - 1).
    destruct (digits_of_spec (Z.abs ex) ltac:(lia)) as (Ene & Eds & Eval).
    destruct (pad2_spec _ Eds Ene) as (Pds & Pne & Pval).
    rewrite Eval in Pval.
    replace (0 * 10 ^ Z.of_nat (List.length (digits_of (Z.abs ex))) + Z.abs ex)
      with (Z.abs ex) in Pval by ring.
    change (if ex <? 0 then "-"%char else "+"%char) with (sign_char (ex <? 0)).
    destruct (digits_split 1 ds Hds) as [Hf Hs].
    rewrite (parse_exponent (firstn 1 ds) (skipn 1 ds) _ (ex <? 0) c (Z.abs ex));
      auto.
    + exists c, k, (Z.abs k).
      split; [|repeat split; lia].
      f_equal. f_equal.
      rewrite length_skipn, Nat2Z.inj_sub by lia.
      change (Z.of_nat 1) with 1. unfold k, ex.
      destruct (Z.ltb_spec (decpt - 1) 0); lia.
    + destruct ds; [contradiction | discriminate].
    + rewrite firstn_skipn. exact Hv0.
  - destruct (Z.leb_spec decpt 0) as [H0 | H0].
    + (* 0.000ddd *)
      change ("0"%char :: "."%char :: zeros (- decpt) ++ ds)
        with (["0"%char] ++ "."%char :: (zeros (- decpt) ++ ds)).
      rewrite (parse_fixed ["0"%char] (zeros (- decpt) ++ ds) c).
      * exists c, k, (Z.abs k).
        split; [|repeat split; lia].
        f_equal. f_equal.
        rewrite length_app, Nat2Z.inj_add, zeros_length by lia.
        unfold k. lia.
      * constructor; [reflexivity | constructor].
      * apply Forall_app; split; [apply zeros_digits | exact Hds].
      * discriminate.
      * change (["0"%char] ++ zeros (- decpt) ++ ds)
          with ("0"%char :: (zeros (- decpt) ++ ds)).
        cbn [digits_val]. change (is_digit "0") with true. cbv iota.
        change (10 * 0 + digit_val "0") with 0.
        rewrite digits_val_app, digits_val_zeros by lia.
        rewrite Hval. f_equal; ring.
    + destruct (Z.leb_spec (Z.of_nat (List.length ds)) decpt) as [H1 | H1].
      * (* ddd000.0 *)
        replace (ds ++ zeros (decpt - Z.of_nat (List.length ds))
                    ++ ["."%char; "0"%char])
          with ((ds ++ zeros (decpt - Z.of_nat (List.length ds)))
                  ++ "."%char :: ["0"%char])
          by (rewrite <- app_assoc; reflexivity).
        rewrite (parse_fixed _ ["0"%char] (c * 10 ^ (k + 1))).
        -- exists (c * 10 ^ (k + 1)), (-1), 1.
           split; [reflexivity|]. split; [lia|]. split; [unfold k; lia|].
           split; [lia|].
           change (-1 + 1) with 0. rewrite Z.pow_0_r. ring.
        -- apply Forall_app; split; [exact Hds | apply zeros_digits].
        -- constructor; [reflexivity | constructor].
        -- destruct ds; [contradiction | discriminate].
        -- rewrite <- app_assoc, digits_val_app, Hv0, digits_val_app.
           rewrite digits_val_zeros by lia. fold k.
           cbn [digits_val]. change (is_digit "0") with true. cbv iota.
           f_equal. rewrite Z.pow_add_r by (unfold k; lia).
           change (digit_val "0") with 0. change (10 ^ 1) with 10. ring.
      * (* ddd.ddd *)
        destruct (digits_split (Z.to_nat decpt) ds Hds) as [Hf Hs].
        rewrite (parse_fixed _ _ c); auto.
        -- exists c, k, (Z.abs k).
           split; [|repeat split; lia].
           f_equal. f_equal.
           rewrite length_skipn, Nat2Z.inj_sub, Z2Nat.id by lia.
           unfold k. lia.
        -- destruct ds; [contradiction|].
           destruct (Z.to_nat decpt) eqn:E; [lia | discriminate].
        -- rewrite firstn_skipn. exact Hv0.
Qed.

Lemma format_repr_shape (ds : list ascii) (decpt : Z) :
  Forall digit ds -> ds <> [] ->
  Forall plain (format_repr ds decpt) /\
  exists d rest, format_repr ds decpt = d :: rest /\ digit d.
Proof.
  intros Hds Hne.
  assert (Hp := digits_plain ds Hds).
  assert (Pdot : plain "."%char) by (split; reflexivity).
  assert (Pe : plain "e"%char) by (split; reflexivity).
  assert (Pzero : plain "0"%char) by (split; reflexivity).
  unfold format_repr; cbv zeta.
  destruct ((decpt <=? -4) || (16 <? decpt)).
  - destruct (digits_of_spec (Z.abs (decpt - 1)) ltac:(lia)) as (Ene & Eds & _).
    destruct (pad2_spec _ Eds Ene) as (Pds & _ & _).
    destruct ds as [|d ds]; [contradiction|].
    inversion Hds as [|? ? Hd Hds']; subst.
    inversion Hp as [|? ? Hpd Hp']; subst.
    split.
    + cbn [firstn skipn app]. constructor; [exact Hpd|].
      apply Forall_app; split.
      * destruct ds; [constructor | constructor; assumption].
      * constructor; [exact Pe|]. constructor.
        -- destruct (decpt - 1 <? 0); split; reflexivity.
        -- apply digits_plain; exact Pds.
    + cbn [firstn app]. eauto.
  - destruct (Z.leb_spec decpt 0) as [H0 | H0].
    + split; [|exists "0"%char; eexists; split; reflexivity].
      constructor; [exact Pzero|]. constructor; [exact Pdot|].
      apply Forall_app; split; [apply digits_plain, zeros_digits | exact Hp].
    + destruct (Z.of_nat (List.length ds) <=? decpt).
      * split.
        -- apply Forall_app; split; [exact Hp|].
           apply Forall_app; split; [apply digits_plain, zeros_digits|].
           constructor; [exact Pdot|]. constructor; [exact Pzero | constructor].
        -- destruct ds as [|d ds]; [contradiction|].
           inversion Hds; subst. cbn [app]. eauto.
      * destruct (digits_split (Z.to_nat decpt) ds Hds) as [Hf Hs].
        split.
        -- apply Forall_app; split; [apply digits_plain, Hf|].
           constructor; [exact Pdot | apply digits_plain, Hs].
        -- destruct ds as [|d ds]; [contradiction|].
           inversion Hds; subst.
           destruct (Z.to_nat decpt) eqn:E; [lia|].
           cbn [firstn app]. eauto.
Qed.

Lemma not_a_word (d : ascii) (rest : list ascii) :
  digit d ->
  let w := map lower (d :: rest) in
  chars_eqb w (list_ascii_of_string "inf")
  || chars_eqb w (list_ascii_of_string "infinity") = false /\
  chars_eqb w (list_ascii_of_string "nan") = false.
Proof.
  intros Hd w. unfold w, chars_eqb. cbn [map string_of_list_ascii list_ascii_of_string].
  rewrite (digit_lower d Hd).
  apply digit_code in Hd.
  cbn [String.eqb].
  rewrite (code_neq d "i") by (change (code "i") with 105; lia).
  rewrite (code_neq d "n") by (change (code "n") with 110; lia).
  split; reflexivity.
Qed.

Lemma split_sign_with_sign (neg : bool) (d : ascii) (rest : list ascii) :
  digit d -> split_sign (with_sign neg (d :: rest)) = (neg, d :: rest).
Proof.
  intro Hd. destruct neg; [reflexivity|].
  destruct (digit_not_sign d Hd) as [Hm Hp].
  cbn [with_sign split_sign]. rewrite Hm, Hp. reflexivity.
Qed.

(** Reading what [repr] prints gives the float back. *)
Lemma float_of_chars_repr (x : float) :
  float_valid x = true -> float_of_chars (repr_chars x) = Some x.
Proof.
  destruct x as [| neg | neg | neg m e]; intro Hv;
    [ vm_compute; reflexivity
    | destruct neg; vm_compute; reflexivity
    | destruct neg; vm_compute; reflexivity
    | ].
  destruct (shortest_decimal_reads_back m e Hv) as [Hback Hpos].
  cbn [repr_chars]; cbv zeta.
  set (c := fst (shortest_decimal m e)) in *.
  set (k := snd (shortest_decimal m e)) in *.
  destruct (digits_of_spec c ltac:(lia)) as (Hne & Hds & _).
  destruct (parse_format_repr c (k + Z.of_nat (List.length (digits_of c))) Hpos)
    as (c' & k' & s & Hparse & Hs & Hks & Hks' & Hsame).
  cbv zeta in Hparse, Hks, Hsame.
  replace (k + Z.of_nat (List.length (digits_of c))
           - Z.of_nat (List.length (digits_of c))) with k in * by lia.
  destruct (format_repr_shape (digits_of c)
              (k + Z.of_nat (List.length (digits_of c))) Hds Hne)
    as (Hplain & d & rest & Hshape & Hd).
  set (body := format_repr (digits_of c) (k + Z.of_nat (List.length (digits_of c)))) in *.
  assert (Hplain' : Forall plain (with_sign neg body)).
  { destruct neg; [|exact Hplain]. constructor; [split; reflexivity | exact Hplain]. }
  unfold float_of_chars.
  rewrite (strip_plain _ Hplain'), (remove_underscores_plain _ false Hplain').
  rewrite Hshape, (split_sign_with_sign neg d rest Hd). cbn [fst snd].
  destruct (not_a_word d rest Hd) as [Hinf Hnan].
  cbv zeta in Hinf, Hnan. rewrite Hinf, Hnan.
  rewrite <- Hshape, Hparse.
  f_equal.
  rewrite (float_of_decimal_same neg c' k' c k s Hs Hks' Hks Hsame).
  apply float_of_decimal_sign. exact Hback.
Qed.

Lemma float_of_string_str_float (x : float) :
  float_valid x = true -> float_of_string (str_float x) = Some x.
Proof.
  intro Hv. unfold float_of_string, str_float.
  rewrite list_ascii_of_string_of_list_ascii.
  apply float_of_chars_repr; exact Hv.
Qed.

(** *** The printer and the reader on known values *)

Example str_float_hundred : str_float hundred = "100.0".
Proof. vm_compute; reflexivity. Qed.

Example str_float_tenth :
  str_float (FNum false 7205759403792794 (-56)) = "0.1".
Proof. vm_compute; reflexivity. Qed.

Example str_float_small :
  str_float (FNum true 5902958103587057 (-69)) = "-1e-05".
Proof. vm_compute; reflexivity. Qed.

Example float_of_string_hundred : float_of_string "100.0" = Some hundred.
Proof. vm_compute; reflexivity. Qed.

Example float_of_string_spaces_and_underscores :
  float_of_string " 1_00.0e0 " = Some hundred.
Proof. vm_compute; reflexivity. Qed.

Example float_of_string_not_a_number : float_of_string "12.5.0" = None.
Proof. vm_compute; reflexivity. Qed.

(** ** The currency and item-kind mappers *)

(** C7: [map_currency] sends each of the four supported currencies to its
    three-letter processor code and every other input to "TRY". *)
Theorem map_currency_spec :
  map_currency "tryLira" = PStr "TRY" /\
  map_currency "usd" = PStr "USD" /\
  map_currency "eur" = PStr "EUR" /\
  map_currency "gbp" = PStr "GBP" /\
  (forall c : string,
     c <> "tryLira" -> c <> "usd" -> c <> "eur" -> c <> "gbp" ->
     map_currency c = PStr "TRY") /\
  (forall c : string,
     In (map_currency c) [PStr "TRY"; PStr "USD"; PStr "EUR"; PStr "GBP"]).
Proof.
  assert (H : forall c : string,
             c <> "tryLira" -> c <> "usd" -> c <> "eur" -> c <> "gbp" ->
             map_currency c = PStr "TRY").
  { intros c Htry Husd Heur Hgbp.
    unfold map_currency, get_default, currency_mapping; simpl.
    destruct (String.eqb_spec c "tryLira"); [contradiction|].
    destruct (String.eqb_spec c "usd"); [contradiction|].
    destruct (String.eqb_spec c "eur"); [contradiction|].
    destruct (String.eqb_spec c "gbp"); [contradiction|].
    reflexivity. }
  do 4 (split; [reflexivity|]). split; [exact H|].
  intro c.
  destruct (string_dec c "tryLira") as [-> | Htry]; [simpl; tauto|].
  destruct (string_dec c "usd") as [-> | Husd]; [simpl; tauto|].
  destruct (string_dec c "eur") as [-> | Heur]; [simpl; tauto|].
  destruct (string_dec c "gbp") as [-> | Hgbp]; [simpl; tauto|].
  rewrite (H c Htry Husd Heur Hgbp); simpl; tauto.
Qed.

Lemma map_currency_spec_witness : map_currency "jpy" = PStr "TRY".
Proof.
  apply (proj1 (proj2 (proj2 (proj2 (proj2 map_currency_spec)))));
    discriminate.
Defined.

Lemma map_item_kind_cases (kind : string) :
  (kind = "physical" /\ map_item_kind kind = "PHYSICAL") \/
  (kind <> "physical" /\ map_item_kind kind = "VIRTUAL").
Proof.
  unfold map_item_kind.
  destruct (String.eqb_spec kind "physical"); [left | right]; split; auto.
Qed.

(** C6, as the code has it: the item kind "physical" gives "PHYSICAL" and
    every other kind gives "VIRTUAL", in the payloads of both builders; an
    item whose kind was left out carries the default kind and gives
    "PHYSICAL". *)
Theorem item_kind_binary (item : BasketItem) :
  (itemType item = "physical" ->
     dict_get "itemType"
       match basket_item_dict item with PDict d => d | _ => [] end
     = Some (PStr "PHYSICAL")) /\
  (itemType item <> "physical" ->
     dict_get "itemType"
       match basket_item_dict item with PDict d => d | _ => [] end
     = Some (PStr "VIRTUAL")) /\
  map_item_kind itemType_default = "PHYSICAL" /\
  (forall req : PaymentRequest,
     dict_get "basketItems" (map_payment_request req)
     = Some (PList (map basket_item_dict (basketItems req)))) /\
  (forall req : ChargeRequest,
     dict_get "basketItems" (charge_request req)
     = Some (PList (map basket_item_dict (charge_basketItems req)))).
Proof.
  repeat split; try reflexivity; intro H; simpl;
    destruct (map_item_kind_cases (itemType item)) as [[E ->] | [E ->]];
    congruence.
Qed.

Lemma item_kind_binary_witness :
  dict_get "itemType"
    match basket_item_dict (sample_item "virtual") with PDict d => d | _ => [] end
  = Some (PStr "VIRTUAL").
Proof.
  apply (proj1 (proj2 (item_kind_binary (sample_item "virtual")))).
  simpl; discriminate.
Defined.

(** C6, as stated, fails: an unrecognised kind gives "VIRTUAL", not
    "PHYSICAL". *)
Lemma item_kind_unrecognised_not_physical :
  itemType (sample_item "digital") <> "physical" /\
  itemType (sample_item "digital") <> "virtual" /\
  dict_get "itemType"
    match basket_item_dict (sample_item "digital") with PDict d => d | _ => [] end
  <> Some (PStr "PHYSICAL").
Proof.
  repeat split; simpl; discriminate.
Qed.

(** ** The payment payload *)

(** C8: when [paidPrice] is left out the payload's [paidPrice] is the
    rendering of [amount]. *)
Theorem paid_price_defaults_to_amount (req : PaymentRequest) :
  paidPrice req = None ->
  dict_get "paidPrice" (map_payment_request req)
  = Some (PStr (str_float (amount req))).
Proof.
  intro H; unfold map_payment_request; rewrite H; reflexivity.
Qed.

Lemma paid_price_defaults_to_amount_witness :
  dict_get "paidPrice" (map_payment_request (sample_request None))
  = Some (PStr (str_float hundred)).
Proof.
  apply (paid_price_defaults_to_amount (sample_request None)); reflexivity.
Defined.

(** C10: a [paidPrice] that is present and equal to zero is treated as an
    absent one: the payload is the one built without it, and its
    [paidPrice] is the rendering of [amount], so that it reads "0.0" only
    if the amount itself does. *)
Theorem zero_paid_price_is_dropped (req : PaymentRequest) (zero : float) :
  paidPrice req = Some zero ->
  float_eqb zero (FZero false) = true ->
  dict_get "paidPrice" (map_payment_request req)
  = Some (PStr (str_float (amount req))) /\
  map_payment_request req = map_payment_request (without_paid_price req) /\
  (dict_get "paidPrice" (map_payment_request req) = Some (PStr "0.0") ->
   str_float (amount req) = "0.0").
Proof.
  intros H Hz.
  assert (E : float_or (paidPrice req) (amount req) = amount req).
  { rewrite H; destruct zero; simpl in *; try discriminate; reflexivity. }
  unfold map_payment_request; rewrite E; simpl.
  repeat split; congruence.
Qed.

Lemma zero_paid_price_is_dropped_witness :
  dict_get "paidPrice" (map_payment_request (sample_request (Some (FZero false))))
  = Some (PStr (str_float hundred)).
Proof.
  apply (zero_paid_price_is_dropped
           (sample_request (Some (FZero false))) (FZero false));
    reflexivity.
Defined.

(** C9: the refund payload and the saved-card charge payload carry the
    constant currency "TRY", whatever the request (neither request model has
    a currency field). *)
Theorem refund_and_charge_currency_is_TRY :
  (forall (now : Z) (request : RefundRequest),
     dict_get "currency" (refund_request now request) = Some (PStr "TRY")) /\
  (forall request : ChargeRequest,
     dict_get "currency" (charge_request request) = Some (PStr "TRY")).
Proof.
  split; reflexivity.
Qed.

(** ** The 3DS confirmation payload *)

(** C2: the confirmation payload takes its [paymentId] from the callback
    payload when there is one holding that key, and is the request's
    [transactionId] otherwise. *)
Theorem complete_3ds_keyed_on_payment_id (request : ThreeDSCompleteRequest) :
  (forall (d : pydict) (v : pyval),
     callbackData request = Some d ->
     dict_get "paymentId" d = Some v ->
     dict_get "paymentId" (complete_3ds_request request) = Some v) /\
  (callbackData request = None ->
     dict_get "paymentId" (complete_3ds_request request)
     = Some (PStr (transactionId request))) /\
  (forall d : pydict,
     callbackData request = Some d ->
     dict_get "paymentId" d = None ->
     dict_get "paymentId" (complete_3ds_request request)
     = Some (PStr (transactionId request))).
Proof.
  unfold complete_3ds_request; repeat split.
  - intros d v -> Hv.
    destruct d as [|kv d]; [discriminate|].
    simpl truthy; cbv iota. simpl. unfold get_default. rewrite Hv. reflexivity.
  - intros ->; reflexivity.
  - intros d -> Hv.
    destruct d as [|kv d]; [reflexivity|].
    simpl truthy; cbv iota. simpl. unfold get_default. rewrite Hv. reflexivity.
Qed.

Lemma complete_3ds_keyed_on_payment_id_witness :
  dict_get "paymentId"
    (complete_3ds_request
       {| transactionId := "T1"; callbackData := Some [("paymentId", PStr "P9")] |})
  = Some (PStr "P9") /\
  PStr "P9" <> PStr "T1".
Proof.
  split; [|discriminate].
  apply (proj1 (complete_3ds_keyed_on_payment_id
                  {| transactionId := "T1";
                     callbackData := Some [("paymentId", PStr "P9")] |})
           [("paymentId", PStr "P9")] (PStr "P9"));
    reflexivity.
Defined.

(** ** The response normalizer *)

Lemma get_default_absent (d : pydict) (k : string) (default : pyval) :
  dict_get k d = None -> get_default d k default = default.
Proof. unfold get_default; intros ->; reflexivity. Qed.

Lemma get_default_present (d : pydict) (k : string) (default v : pyval) :
  dict_get k d = Some v -> get_default d k default = v.
Proof. unfold get_default; intros ->; reflexivity. Qed.

Lemma status_success (d : pydict) :
  dict_get "status" d = Some (PStr "success") ->
  eq_str (get_default d "status" PNone) "success" = true.
Proof. intro H; rewrite (get_default_present _ _ _ _ H); reflexivity. Qed.

Lemma map_payment_response_success (d : pydict) (a p : float) :
  dict_get "status" d = Some (PStr "success") ->
  py_float (get_default d "price" (PInt 0)) = Ok a ->
  py_float (get_default d "paidPrice" (PInt 0)) = Ok p ->
  map_payment_response (PDict d)
  = Ok (PDict
          [("success", PBool true);
           ("transactionId", get_default d "paymentId" PNone);
           ("paymentId", get_default d "paymentId" PNone);
           ("amount", PFloat a);
           ("paidAmount", PFloat p);
           ("installment", get_default d "installment" PNone);
           ("cardType", get_default d "cardType" PNone);
           ("cardAssociation", get_default d "cardAssociation" PNone);
           ("binNumber", get_default d "binNumber" PNone);
           ("lastFourDigits", get_default d "lastFourDigits" PNone)]).
Proof.
  intros Hs Ha Hp.
  unfold map_payment_response, py_get; simpl bind.
  rewrite (status_success d Hs), Ha; simpl bind; rewrite Hp; reflexivity.
Qed.

(** C3: on a result whose status is "success" the normalizer answers with
    numbers in [amount] and [paidAmount]: the number read from the string
    when [price] (or [paidPrice]) is a numeric string, and 0 when the key is
    absent; each of the other optional fields is null when absent. *)
Theorem success_branch_coerces_and_defaults (d : pydict) (a p : float) :
  dict_get "status" d = Some (PStr "success") ->
  py_float (get_default d "price" (PInt 0)) = Ok a ->
  py_float (get_default d "paidPrice" (PInt 0)) = Ok p ->
  exists response : pydict,
    map_payment_response (PDict d) = Ok (PDict response) /\
    dict_get "success" response = Some (PBool true) /\
    dict_get "amount" response = Some (PFloat a) /\
    dict_get "paidAmount" response = Some (PFloat p) /\
    (forall s, dict_get "price" d = Some (PStr s) -> float_of_string s = Some a) /\
    (forall s, dict_get "paidPrice" d = Some (PStr s) ->
               float_of_string s = Some p) /\
    (dict_get "price" d = None -> a = FZero false) /\
    (dict_get "paidPrice" d = None -> p = FZero false) /\
    (forall k, In k success_fields -> dict_get k d = None ->
               dict_get k response = Some PNone).
Proof.
  intros Hs Ha Hp.
  eexists; split; [apply (map_payment_response_success d a p Hs Ha Hp)|].
  repeat split; try reflexivity.
  - intros s H. rewrite (get_default_present _ _ _ _ H) in Ha. simpl in Ha.
    destruct (float_of_string s); congruence.
  - intros s H. rewrite (get_default_present _ _ _ _ H) in Hp. simpl in Hp.
    destruct (float_of_string s); congruence.
  - intro H. rewrite (get_default_absent _ _ _ H) in Ha.
    vm_compute in Ha. congruence.
  - intro H. rewrite (get_default_absent _ _ _ H) in Hp.
    vm_compute in Hp. congruence.
  - intros k Hk H. simpl in Hk.
    destruct Hk as [<- | [<- | [<- | [<- | [<- | []]]]]]; simpl;
      rewrite (get_default_absent _ _ _ H); reflexivity.
Qed.

Lemma success_branch_coerces_and_defaults_witness :
  exists response : pydict,
    map_payment_response
      (PDict [("status", PStr "success"); ("paymentId", PStr "PAY1");
              ("price", PStr "100.0")])
    = Ok (PDict response) /\
    dict_get "amount" response = Some (PFloat hundred) /\
    dict_get "paidAmount" response = Some (PFloat (FZero false)) /\
    dict_get "cardType" response = Some PNone.
Proof.
  destruct (success_branch_coerces_and_defaults
              [("status", PStr "success"); ("paymentId", PStr "PAY1");
               ("price", PStr "100.0")] hundred (FZero false))
    as (response & H & _ & Ha & Hp & _ & _ & _ & _ & Hk).
  - reflexivity.
  - vm_compute; reflexivity.
  - vm_compute; reflexivity.
  - exists response; repeat split; auto.
    apply Hk; [simpl; tauto | reflexivity].
Defined.

(** ** Failure envelopes *)

Create HintDb shape.

Lemma quiet_ok {A : Type} (a : A) : quiet (Ok a).
Proof. exact I. Qed.

Lemma quiet_other {A : Type} (e : pyerror) : quiet (@Raise A (Other e)).
Proof. exact I. Qed.

Lemma quiet_bind {A B : Type} (m : exc A) (f : A -> exc B) :
  quiet m -> (forall a, quiet (f a)) -> quiet (bind m f).
Proof. destruct m as [a | [s d | e]]; simpl; auto. Qed.

Lemma quiet_py_get (v : pyval) (k : string) (default : pyval) :
  quiet (py_get v k default).
Proof. destruct v; exact I. Qed.

Lemma quiet_py_float (v : pyval) : quiet (py_float v).
Proof.
  destruct v; simpl; try exact I.
  - destruct (float_of_int n); exact I.
  - destruct (float_of_string s); exact I.
Qed.

Lemma quiet_py_item (v : pyval) (k : string) : quiet (py_item v k).
Proof. destruct v; simpl; try exact I. destruct (dict_get k d); exact I. Qed.

Lemma quiet_py_first (v : pyval) : quiet (py_first v).
Proof.
  destruct v as [| | | | s | l | d]; simpl; try exact I.
  - destruct s; exact I.
  - destruct l; exact I.
Qed.

Lemma quiet_py_iter (v : pyval) : quiet (py_iter v).
Proof. destruct v; exact I. Qed.

Lemma quiet_mapM {A B : Type} (f : A -> exc B) (l : list A) :
  (forall a, quiet (f a)) -> quiet (mapM f l).
Proof.
  intro H; induction l as [|a l IH]; simpl; [exact I|].
  apply quiet_bind; [apply H|]; intro b.
  apply quiet_bind; [exact IH|]; intro bs; exact I.
Qed.

Lemma quiet_if {A : Type} (b : bool) (x y : exc A) :
  quiet x -> quiet y -> quiet (if b then x else y).
Proof. destruct b; auto. Qed.

#[local] Hint Resolve quiet_ok quiet_other quiet_bind quiet_py_get
  quiet_py_float quiet_py_item quiet_py_first quiet_py_iter quiet_mapM
  quiet_if : shape.

Lemma quiet_map_payment_response (result : pyval) :
  quiet (map_payment_response result).
Proof.
  unfold map_payment_response.
  apply quiet_bind; [auto with shape|]; intro status.
  apply quiet_if; repeat (apply quiet_bind; [auto with shape|]; intro);
    exact I.
Qed.

Lemma well_shaped_quiet (m : exc pyval) : quiet m -> well_shaped m.
Proof. destruct m as [a | [s d | e]]; simpl; tauto. Qed.

Lemma well_shaped_bind {A : Type} (m : exc A) (f : A -> exc pyval) :
  quiet m -> (forall a, well_shaped (f a)) -> well_shaped (bind m f).
Proof. destruct m as [a | [s d | e]]; simpl; auto; tauto. Qed.

Lemma well_shaped_if (b : bool) (x y : exc pyval) :
  well_shaped x -> well_shaped y -> well_shaped (if b then x else y).
Proof. destruct b; auto. Qed.

Lemma well_shaped_envelope (c m : pyval) :
  well_shaped (Raise (HTTPException 400 (failure_envelope c m))).
Proof. simpl; split; [reflexivity | exists c, m; reflexivity]. Qed.

Lemma respond_dict (d : pydict) :
  map_payment_response (PDict d)
  = (if eq_str (get_default d "status" PNone) "success" then
       amount <- py_float (get_default d "price" (PInt 0)) ;;
       paidAmount <- py_float (get_default d "paidPrice" (PInt 0)) ;;
       Ok (PDict
             [("success", PBool true);
              ("transactionId", get_default d "paymentId" PNone);
              ("paymentId", get_default d "paymentId" PNone);
              ("amount", PFloat amount);
              ("paidAmount", PFloat paidAmount);
              ("installment", get_default d "installment" PNone);
              ("cardType", get_default d "cardType" PNone);
              ("cardAssociation", get_default d "cardAssociation" PNone);
              ("binNumber", get_default d "binNumber" PNone);
              ("lastFourDigits", get_default d "lastFourDigits" PNone)])
     else
       Ok (failure_envelope
             (get_default d "errorCode" (PStr "unknown"))
             (get_default d "errorMessage" (PStr "Unknown error")))).
Proof.
  unfold map_payment_response, py_get; simpl bind.
  destruct (eq_str (get_default d "status" PNone) "success"); [|reflexivity].
  destruct (py_float (get_default d "price" (PInt 0))); [|reflexivity].
  simpl bind.
  destruct (py_float (get_default d "paidPrice" (PInt 0))); reflexivity.
Qed.

Section EndpointProperties.

Variable iyzipay : sdk_call -> pydict -> pyval + pyerror.
Variable json_loads : string -> pyval + pyerror.
Variable str_error : pyerror -> string.
Variable now : Z.

Lemma quiet_lift (r : pyval + pyerror) : quiet (lift r).
Proof. destruct r; exact I. Qed.

Lemma quiet_call_processor (call : sdk_call) (request : pydict) :
  quiet (call_processor iyzipay json_loads call request).
Proof.
  unfold call_processor.
  apply quiet_bind; [apply quiet_lift|].
  intros [| | | | s | |]; try exact I; apply quiet_lift.
Qed.

Lemma well_shaped_raise_failure (result : pyval) (code message : string) :
  well_shaped (raise_failure result code message).
Proof.
  unfold raise_failure.
  apply well_shaped_bind; [auto with shape|]; intro c.
  apply well_shaped_bind; [auto with shape|]; intro m.
  apply well_shaped_envelope.
Qed.

Lemma well_shaped_respond (result : pyval) : well_shaped (respond result).
Proof.
  unfold respond.
  destruct result as [| | | | | |d];
    try (unfold map_payment_response, py_get; exact I).
  rewrite respond_dict.
  destruct (eq_str (get_default d "status" PNone) "success").
  - destruct (py_float (get_default d "price" (PInt 0))) as [a | [|]] eqn:Ea;
      try exact I.
    + simpl bind.
      destruct (py_float (get_default d "paidPrice" (PInt 0)))
        as [p | [|]] eqn:Ep; try exact I.
      pose proof (quiet_py_float (get_default d "paidPrice" (PInt 0))) as Q.
      rewrite Ep in Q; destruct Q.
    + pose proof (quiet_py_float (get_default d "price" (PInt 0))) as Q.
      rewrite Ea in Q; destruct Q.
  - simpl. split; [reflexivity | eexists; eexists; reflexivity].
Qed.

Lemma error_shape_guarded (body : exc pyval) :
  well_shaped body -> error_shape (guarded str_error body).
Proof.
  destruct body as [a | [s d | e]]; simpl; auto.
  - intros [-> H]; auto.
  - intros _; split; [right; reflexivity | eexists; eexists; reflexivity].
Qed.

#[local] Hint Resolve quiet_lift quiet_call_processor
  well_shaped_raise_failure well_shaped_respond well_shaped_quiet
  well_shaped_if : shape.

Ltac shape_step :=
  first
    [ apply well_shaped_raise_failure
    | apply well_shaped_respond
    | apply well_shaped_if
    | apply well_shaped_bind; [solve [auto 10 with shape] | intro]
    | exact I ].

(** C4, as the code has it: when the processor's result has a status other
    than "success", init-3DS, refund and delete-card end with a 400 whose
    envelope has [success] false, the result's [errorCode] and
    [errorMessage] as they are when the keys are present (whatever their
    values), and the operation's own default where a key is absent. *)
Theorem failure_branch_carries_or_defaults (d : pydict) :
  eq_str (get_default d "status" PNone) "success" = false ->
  let carried (r : exc pyval) (code message : string) :=
    r = Raise (HTTPException 400
                 (failure_envelope
                    match dict_get "errorCode" d with
                    | Some v => v
                    | None => PStr code
                    end
                    match dict_get "errorMessage" d with
                    | Some v => v
                    | None => PStr message
                    end)) in
  (forall request : PaymentRequest,
     call_processor iyzipay json_loads ThreedsInitialize_create
       (dict_set "callbackUrl" (opt_str (callbackUrl request))
          (map_payment_request request)) = Ok (PDict d) ->
     carried (init_3ds_payment iyzipay json_loads str_error request)
       "3ds_init_failed" "3DS initialization failed") /\
  (forall request : RefundRequest,
     call_processor iyzipay json_loads Refund_create (refund_request now request)
     = Ok (PDict d) ->
     carried (refund_payment iyzipay json_loads str_error now request)
       "refund_failed" "Refund failed") /\
  (forall card_token cardUserKey : string,
     call_processor iyzipay json_loads Card_delete
       [("locale", PStr "tr");
        ("conversationId", PStr (str_int now));
        ("cardToken", PStr card_token);
        ("cardUserKey", PStr cardUserKey)] = Ok (PDict d) ->
     carried
       (delete_saved_card iyzipay json_loads str_error now
          card_token cardUserKey)
       "card_delete_failed" "Failed to delete card").
Proof.
  intros Hs carried; unfold carried; repeat split.
  - intros request H.
    unfold init_3ds_payment; rewrite H; simpl bind; rewrite Hs; reflexivity.
  - intros request H.
    unfold refund_payment; rewrite H; simpl bind; rewrite Hs; reflexivity.
  - intros card_token cardUserKey H.
    unfold delete_saved_card; rewrite H; simpl bind; rewrite Hs; reflexivity.
Qed.

(** C5, as the code has it: every handler either returns a response or
    ends with an [HTTPException] whose detail is an envelope with
    [success] false, an [errorCode] and an [errorMessage]; this covers the
    processor's rejections (400) and every exception met on the way (500).
    A query parameter that breaks its declared constraint is refused
    before the handler runs, with the framework's own error and no
    envelope. *)
Theorem handlers_end_with_an_envelope :
  (forall request, error_shape (create_payment iyzipay json_loads str_error request)) /\
  (forall request, error_shape (init_3ds_payment iyzipay json_loads str_error request)) /\
  (forall request, error_shape (complete_3ds_payment iyzipay json_loads str_error request)) /\
  (forall binNumber amount,
     installments_violations binNumber amount = [] ->
     error_shape (get_installments iyzipay json_loads str_error now binNumber amount)) /\
  (forall binNumber amount,
     installments_violations binNumber amount <> [] ->
     get_installments iyzipay json_loads str_error now binNumber amount
     = Raise (Other (RequestValidationError
                       (installments_violations binNumber amount)))) /\
  (forall request, error_shape (refund_payment iyzipay json_loads str_error now request)) /\
  (forall payment_id, error_shape (get_payment_status iyzipay json_loads str_error now payment_id)) /\
  (forall cardUserKey, error_shape (list_saved_cards iyzipay json_loads str_error now cardUserKey)) /\
  (forall request, error_shape (charge_saved_card iyzipay json_loads str_error request)) /\
  (forall card_token cardUserKey,
     error_shape (delete_saved_card iyzipay json_loads str_error now card_token cardUserKey)).
Proof.
  repeat split; intros.
  - apply error_shape_guarded; cbv zeta; repeat shape_step.
  - apply error_shape_guarded; cbv zeta; repeat shape_step.
  - apply error_shape_guarded; cbv zeta; repeat shape_step.
  - unfold get_installments; rewrite H.
    apply error_shape_guarded; cbv zeta; repeat shape_step.
    unfold installment_option; auto 20 with shape.
  - unfold get_installments.
    destruct (installments_violations _ _); congruence.
  - apply error_shape_guarded; cbv zeta; repeat shape_step.
  - apply error_shape_guarded; cbv zeta; repeat shape_step.
  - apply error_shape_guarded; cbv zeta; repeat shape_step.
    unfold saved_card; auto 20 with shape.
  - apply error_shape_guarded; cbv zeta; repeat shape_step.
  - apply error_shape_guarded; cbv zeta; repeat shape_step.
Qed.

End EndpointProperties.

(** ** The round trip through the payload and the normalizer *)

Lemma float_eqb_refl (x : float) : float_finite x = true -> float_eqb x x = true.
Proof.
  destruct x as [| b | b | b m e]; simpl; try discriminate; intros _;
    [reflexivity|].
  rewrite Bool.eqb_reflx, Pos.eqb_refl, Z.eqb_refl. reflexivity.
Qed.

Lemma float_or_cases (a : option float) (b : float) :
  (exists x, a = Some x /\ float_truthy x = true /\ float_or a b = x) \/
  ((a = None \/ exists x, a = Some x /\ float_truthy x = false) /\
   float_or a b = b).
Proof.
  destruct a as [x|]; simpl.
  - destruct (float_truthy x) eqn:E; [left | right]; eauto 6.
  - right; auto.
Qed.

Lemma round_trip_response (req : PaymentRequest) :
  float_valid (amount req) = true ->
  float_valid (float_or (paidPrice req) (amount req)) = true ->
  map_payment_response (PDict (synthetic_success (map_payment_request req)))
  = Ok (PDict
          [("success", PBool true);
           ("transactionId", PNone);
           ("paymentId", PNone);
           ("amount", PFloat (amount req));
           ("paidAmount", PFloat (float_or (paidPrice req) (amount req)));
           ("installment", PNone);
           ("cardType", PNone);
           ("cardAssociation", PNone);
           ("binNumber", PNone);
           ("lastFourDigits", PNone)]).
Proof.
  intros Ha Hp.
  apply (map_payment_response_success
           (synthetic_success (map_payment_request req))).
  - reflexivity.
  - change (get_default (synthetic_success (map_payment_request req)) "price"
              (PInt 0))
      with (PStr (str_float (amount req))).
    unfold py_float. rewrite (float_of_string_str_float _ Ha). reflexivity.
  - change (get_default (synthetic_success (map_payment_request req))
              "paidPrice" (PInt 0))
      with (PStr (str_float (float_or (paidPrice req) (amount req)))).
    unfold py_float. rewrite (float_of_string_str_float _ Hp). reflexivity.
Qed.

(** C1, as the code has it: for a request whose [amount] and [paidPrice] are
    finite floats, normalizing the success result that echoes the payload's
    [price] and [paidPrice] gives back [amount], and gives as [paidAmount]
    the request's [paidPrice] when it is present and not zero, and [amount]
    when it is absent or zero. *)
Theorem round_trip_recovers_amounts (req : PaymentRequest) :
  float_valid (amount req) = true ->
  float_finite (amount req) = true ->
  (forall x, paidPrice req = Some x ->
             float_valid x = true /\ float_finite x = true) ->
  exists (response : pydict) (a p : float),
    map_payment_response (PDict (synthetic_success (map_payment_request req)))
    = Ok (PDict response) /\
    dict_get "amount" response = Some (PFloat a) /\
    dict_get "paidAmount" response = Some (PFloat p) /\
    float_eqb a (amount req) = true /\
    (forall x, paidPrice req = Some x -> float_truthy x = true ->
               float_eqb p x = true) /\
    (paidPrice req = None \/
     (exists x, paidPrice req = Some x /\ float_truthy x = false) ->
     float_eqb p (amount req) = true).
Proof.
  intros Ha Hfin Hpaid.
  assert (Hp : float_valid (float_or (paidPrice req) (amount req)) = true
               /\ float_finite (float_or (paidPrice req) (amount req)) = true).
  { destruct (float_or_cases (paidPrice req) (amount req))
      as [(x & E & _ & ->) | [_ ->]]; auto. }
  destruct Hp as [Hpv Hpf].
  eexists; exists (amount req), (float_or (paidPrice req) (amount req)).
  split; [apply (round_trip_response req Ha Hpv)|].
  repeat split; try reflexivity.
  - apply float_eqb_refl; exact Hfin.
  - intros x E Hx. rewrite E; simpl. rewrite Hx.
    apply float_eqb_refl. apply (Hpaid x E).
  - intros [E | (x & E & Hx)]; rewrite E; simpl; [|rewrite Hx];
      apply float_eqb_refl; exact Hfin.
Qed.

Lemma round_trip_recovers_amounts_witness :
  exists (response : pydict) (p : float),
    map_payment_response
      (PDict (synthetic_success
                (map_payment_request (sample_request (Some float_one)))))
    = Ok (PDict response) /\
    dict_get "paidAmount" response = Some (PFloat p) /\
    float_eqb p float_one = true.
Proof.
  destruct (round_trip_recovers_amounts (sample_request (Some float_one)))
    as (response & a & p & H & _ & Hp & _ & Hx & _).
  - reflexivity.
  - reflexivity.
  - intros x E; injection E as <-; split; reflexivity.
  - exists response, p.
    split; [exact H|]. split; [exact Hp|]. apply Hx; reflexivity.
Defined.

(** C1, as stated, fails: with [amount] 100.0 and [paidPrice] 0.0 the
    normalized [paidAmount] is 100.0, which is not the request's
    [paidPrice]. *)
Lemma round_trip_loses_zero_paid_price :
  let req := sample_request (Some (FZero false)) in
  float_finite (amount req) = true /\
  paidPrice req = Some (FZero false) /\
  dict_get "price" (map_payment_request req) = Some (PStr "100.0") /\
  dict_get "paidPrice" (map_payment_request req) = Some (PStr "100.0") /\
  map_payment_response (PDict (synthetic_success (map_payment_request req)))
  = Ok (PDict
          [("success", PBool true);
           ("transactionId", PNone);
           ("paymentId", PNone);
           ("amount", PFloat hundred);
           ("paidAmount", PFloat hundred);
           ("installment", PNone);
           ("cardType", PNone);
           ("cardAssociation", PNone);
           ("binNumber", PNone);
           ("lastFourDigits", PNone)]) /\
  float_eqb hundred (FZero false) = false.
Proof.
  cbv zeta.
  split; [reflexivity|]. split; [reflexivity|].
  split; [rewrite <- str_float_hundred; reflexivity|].
  split; [rewrite <- str_float_hundred; reflexivity|].
  split; [|reflexivity].
  apply (round_trip_response (sample_request (Some (FZero false))));
    reflexivity.
Qed.

(** ** The handlers at concrete inputs *)

Example create_payment_accepted :
  create_payment
    (answers (PDict [("status", PStr "success"); ("paymentId", PStr "PAY1");
                     ("price", PStr "100.0"); ("paidPrice", PStr "100.0")]))
    no_json message_of (sample_request None)
  = Ok (PDict
          [("success", PBool true);
           ("transactionId", PStr "PAY1");
           ("paymentId", PStr "PAY1");
           ("amount", PFloat hundred);
           ("paidAmount", PFloat hundred);
           ("installment", PNone);
           ("cardType", PNone);
           ("cardAssociation", PNone);
           ("binNumber", PNone);
           ("lastFourDigits", PNone)]).
Proof. vm_compute; reflexivity. Qed.

Example create_payment_processor_down :
  create_payment (fun _ _ => inr (Raised "connection refused"))
    no_json message_of (sample_request None)
  = Raise (HTTPException 500
             (failure_envelope (PStr "server_error")
                (PStr "connection refused"))).
Proof. reflexivity. Qed.

Example create_payment_declined :
  create_payment (answers declined) no_json message_of (sample_request None)
  = Raise (HTTPException 400
             (failure_envelope (PStr "5006") (PStr "Invalid card"))).
Proof. reflexivity. Qed.

Lemma failure_branch_carries_or_defaults_witness :
  refund_payment (answers declined) no_json message_of 0 sample_refund
  = Raise (HTTPException 400
             (failure_envelope (PStr "5006") (PStr "Invalid card"))).
Proof.
  apply (proj1 (proj2 (failure_branch_carries_or_defaults
                         (answers declined) no_json message_of 0
                         [("status", PStr "failure"); ("errorCode", PStr "5006");
                          ("errorMessage", PStr "Invalid card")]
                         eq_refl)));
    reflexivity.
Defined.

(** C4, as stated, fails: an empty [errorCode] sent by the processor is
    carried as it is, so the client receives an empty error identifier. *)
Lemma empty_error_code_reaches_the_client :
  refund_payment
    (answers (PDict [("status", PStr "failure"); ("errorCode", PStr EmptyString)]))
    no_json message_of 0 sample_refund
  = Raise (HTTPException 400
             (failure_envelope (PStr EmptyString) (PStr "Refund failed"))) /\
  error_field
    (refund_payment
       (answers (PDict [("status", PStr "failure"); ("errorCode", PStr EmptyString)]))
       no_json message_of 0 sample_refund)
    "errorCode"
  = Some (PStr EmptyString).
Proof. split; reflexivity. Qed.

Lemma handlers_end_with_an_envelope_witness :
  error_shape
    (get_installments (answers declined) no_json message_of 0 "552879" hundred).
Proof.
  apply (proj1 (proj2 (proj2 (proj2
           (handlers_end_with_an_envelope
              (answers declined) no_json message_of 0)))));
    reflexivity.
Defined.

(** C5, as stated, fails: a BIN of five digits is refused before the handler
    runs, with the framework's validation error and no envelope. *)
Lemma short_bin_is_refused_without_envelope :
  get_installments (answers declined) no_json message_of 0 "12345" hundred
  = Raise (Other (RequestValidationError [["query"; "binNumber"]])) /\
  ~ error_shape
      (get_installments (answers declined) no_json message_of 0 "12345" hundred).
Proof. split; [reflexivity | intro H; exact H]. Qed.

(** * Further properties *)

(** ** Payloads *)

Lemma str_or_cases (a : option string) (b : string) :
  ((a = None \/ a = Some EmptyString) /\ str_or a b = b) \/
  (exists s, a = Some s /\ s <> EmptyString /\ str_or a b = s).
Proof.
  destruct a as [s|]; simpl; [|left; auto].
  destruct (String.eqb_spec s EmptyString) as [-> | H]; [left; auto|].
  right; exists s; auto.
Qed.

(** X1: in the payment payload and in the saved-card charge payload the
    buyer's [identityNumber] is the placeholder "11111111111" when the
    request has none or an empty one, and the request's own otherwise. *)
Theorem identity_number_placeholder (b : BuyerInfo) :
  (identityNumber b = None \/ identityNumber b = Some EmptyString ->
   forall (req : PaymentRequest) (charge : ChargeRequest),
     buyer req = b -> charge_buyer charge = b ->
     dict_path (map_payment_request req) "buyer" "identityNumber"
     = Some (PStr "11111111111") /\
     dict_path (charge_request charge) "buyer" "identityNumber"
     = Some (PStr "11111111111")) /\
  (forall s, identityNumber b = Some s -> s <> EmptyString ->
   forall (req : PaymentRequest) (charge : ChargeRequest),
     buyer req = b -> charge_buyer charge = b ->
     dict_path (map_payment_request req) "buyer" "identityNumber"
     = Some (PStr s) /\
     dict_path (charge_request charge) "buyer" "identityNumber"
     = Some (PStr s)).
Proof.
  split.
  - intros H req charge <- E.
    assert (Es : str_or (identityNumber (buyer req)) "11111111111"
                 = "11111111111")
      by (destruct H as [-> | ->]; reflexivity).
    unfold dict_path, map_payment_request, charge_request, buyer_dict.
    cbn [dict_get String.eqb Ascii.eqb Bool.eqb]. rewrite E, Es. auto.
  - intros s H Hs req charge <- E.
    assert (Es : str_or (identityNumber (buyer req)) "11111111111" = s).
    { rewrite H; simpl.
      destruct (String.eqb_spec s EmptyString); [contradiction | reflexivity]. }
    unfold dict_path, map_payment_request, charge_request, buyer_dict.
    cbn [dict_get String.eqb Ascii.eqb Bool.eqb]. rewrite E, Es. auto.
Qed.

Lemma identity_number_placeholder_witness :
  dict_path (map_payment_request (sample_request None)) "buyer" "identityNumber"
  = Some (PStr "11111111111").
Proof.
  apply (proj1 (proj1 (identity_number_placeholder sample_buyer)
                  (or_introl eq_refl) (sample_request None)
                  {| cardToken := "tok"; cardUserKey := "key";
                     charge_orderId := "ORD1"; charge_amount := hundred;
                     charge_buyer := sample_buyer; charge_basketItems := [] |}
                  eq_refl eq_refl)).
Defined.

(** X2: the shipping and the billing address of a payload are the same
    dict, made of the buyer's name and surname joined by a space and of the
    buyer's city, country and address, in the payment payload as in the
    saved-card charge payload. *)
Theorem addresses_follow_the_buyer :
  (forall req : PaymentRequest,
     let p := map_payment_request req in
     dict_get "shippingAddress" p = dict_get "billingAddress" p /\
     dict_path p "billingAddress" "contactName"
     = Some (PStr (buyer_name (buyer req) ++ " " ++ surname (buyer req))%string) /\
     dict_path p "billingAddress" "address"
     = dict_path p "buyer" "registrationAddress" /\
     dict_path p "billingAddress" "city" = dict_path p "buyer" "city" /\
     dict_path p "billingAddress" "country" = dict_path p "buyer" "country") /\
  (forall req : ChargeRequest,
     let p := charge_request req in
     dict_get "shippingAddress" p = dict_get "billingAddress" p /\
     dict_path p "billingAddress" "contactName"
     = Some (PStr (buyer_name (charge_buyer req) ++ " "
                   ++ surname (charge_buyer req))%string) /\
     dict_path p "billingAddress" "address"
     = dict_path p "buyer" "registrationAddress" /\
     dict_path p "billingAddress" "city" = dict_path p "buyer" "city" /\
     dict_path p "billingAddress" "country" = dict_path p "buyer" "country").
Proof.
  split; intros req p; repeat split.
Qed.

Lemma dict_get_set_same (k : string) (v : pyval) (d : pydict) :
  dict_get k (dict_set k v d) = Some v.
Proof.
  induction d as [|[k' v'] d IH]; simpl.
  - rewrite String.eqb_refl; reflexivity.
  - destruct (String.eqb k k') eqn:E; simpl; rewrite ?String.eqb_refl, ?E; auto.
Qed.

Lemma dict_get_set_other (k k' : string) (v : pyval) (d : pydict) :
  k' <> k -> dict_get k' (dict_set k v d) = dict_get k' d.
Proof.
  intro H. induction d as [|[k0 v0] d IH]; simpl.
  - destruct (String.eqb_spec k' k); [contradiction | reflexivity].
  - destruct (String.eqb_spec k k0) as [-> | Hk]; simpl.
    + destruct (String.eqb_spec k' k0); [contradiction | reflexivity].
    + destruct (String.eqb k' k0); auto.
Qed.

(** X3: the 3DS initialization payload is the payment payload with one more
    entry, [callbackUrl], which holds the request's callback URL, or null
    when the request has none; every other key reads as in the payment
    payload. *)
Theorem init_3ds_payload_adds_callback_url (request : PaymentRequest) :
  dict_get "callbackUrl" (map_payment_request request) = None /\
  dict_get "callbackUrl" (init_3ds_request request)
  = Some (opt_str (callbackUrl request)) /\
  (callbackUrl request = None ->
   dict_get "callbackUrl" (init_3ds_request request) = Some PNone) /\
  (forall k, k <> "callbackUrl" ->
     dict_get k (init_3ds_request request)
     = dict_get k (map_payment_request request)).
Proof.
  unfold init_3ds_request. split; [reflexivity|].
  split; [apply dict_get_set_same|].
  split.
  - intros E. rewrite dict_get_set_same, E. reflexivity.
  - intros k Hk. apply dict_get_set_other; exact Hk.
Qed.

Lemma init_3ds_payload_adds_callback_url_witness :
  dict_get "callbackUrl" (init_3ds_request (sample_request None)) = Some PNone /\
  dict_get "basketId" (init_3ds_request (sample_request None))
  = dict_get "basketId" (map_payment_request (sample_request None)).
Proof.
  split.
  - apply (proj1 (proj2 (proj2 (init_3ds_payload_adds_callback_url
                                   (sample_request None))))); reflexivity.
  - apply (proj2 (proj2 (proj2 (init_3ds_payload_adds_callback_url
                                   (sample_request None))))); discriminate.
Defined.

(** X4: charging a saved card sends what paying the same order with a full
    card would send, in the default currency, in one installment and with
    no separate [paidPrice]: the two payloads have the same keys in the same
    order and the same value under every key but [paymentCard]. *)
Theorem charge_payload_matches_payment_payload
    (request : ChargeRequest) (c : CardInfo) :
  map fst (charge_request request)
  = map fst (map_payment_request (payment_of_charge request c)) /\
  (forall k, k <> "paymentCard" ->
     dict_get k (charge_request request)
     = dict_get k (map_payment_request (payment_of_charge request c))) /\
  dict_get "paidPrice" (charge_request request)
  = dict_get "price" (charge_request request) /\
  dict_path (charge_request request) "paymentCard" "cardNumber" = None.
Proof.
  split; [reflexivity|]. split; [|split; reflexivity].
  intros k Hk.
  unfold charge_request, map_payment_request, payment_of_charge.
  cbn [dict_get orderId amount paidPrice currency installment buyer
         basketItems float_or].
  repeat match goal with
         | |- context [String.eqb k ?s] =>
             destruct (String.eqb_spec k s);
             [subst; try reflexivity; try contradiction|]
         end.
  reflexivity.
Qed.

Lemma charge_payload_matches_payment_payload_witness :
  dict_get "currency"
    (charge_request
       {| cardToken := "tok"; cardUserKey := "key"; charge_orderId := "ORD1";
          charge_amount := hundred; charge_buyer := sample_buyer;
          charge_basketItems := [sample_item "physical"] |})
  = dict_get "currency"
      (map_payment_request
         (payment_of_charge
            {| cardToken := "tok"; cardUserKey := "key";
               charge_orderId := "ORD1"; charge_amount := hundred;
               charge_buyer := sample_buyer;
               charge_basketItems := [sample_item "physical"] |}
            sample_card)).
Proof.
  apply (proj1 (proj2 (charge_payload_matches_payment_payload _ sample_card)));
    discriminate.
Defined.

(** X5: the processor codes are not themselves recognised: whatever
    [map_currency] returns, mapping it again gives "TRY", so a client that
    sends "USD" or "EUR" instead of the wire names is charged in TRY. *)
Theorem map_currency_of_a_code_is_TRY (c s : string) :
  map_currency c = PStr s -> map_currency s = PStr "TRY".
Proof.
  unfold map_currency, get_default, currency_mapping; cbn [dict_get].
  destruct (String.eqb c "tryLira");
    [|destruct (String.eqb c "usd");
      [|destruct (String.eqb c "eur"); [|destruct (String.eqb c "gbp")]]];
    intro E; injection E as <-; reflexivity.
Qed.

Lemma map_currency_of_a_code_is_TRY_witness : map_currency "USD" = PStr "TRY".
Proof. apply (map_currency_of_a_code_is_TRY "usd" "USD"); reflexivity. Defined.

Lemma digits_of_inj (a b : Z) :
  0 <= a -> 0 <= b -> digits_of a = digits_of b -> a = b.
Proof.
  intros Ha Hb E.
  pose proof (digits_of_val a Ha) as Va. rewrite E, (digits_of_val b Hb) in Va.
  congruence.
Qed.

Lemma string_of_list_ascii_inj (l l' : list ascii) :
  string_of_list_ascii l = string_of_list_ascii l' -> l = l'.
Proof.
  intro E. rewrite <- (list_ascii_of_string_of_list_ascii l),
    <- (list_ascii_of_string_of_list_ascii l'), E. reflexivity.
Qed.

(** X6: refund, status, list-cards, delete-card and installments take their
    [conversationId] from the clock alone: two calls in the same second
    carry the same identifier whatever they ask, and calls in different
    seconds carry different ones. *)
Theorem clock_conversation_ids :
  (forall (now : Z) (refund : RefundRequest) (payment_id cardUserKey
           card_token binNumber : string) (amount : float),
     dict_get "conversationId" (refund_request now refund)
     = Some (PStr (str_int now)) /\
     dict_get "conversationId" (status_request now payment_id)
     = Some (PStr (str_int now)) /\
     dict_get "conversationId" (cards_request now cardUserKey)
     = Some (PStr (str_int now)) /\
     dict_get "conversationId" (delete_request now card_token cardUserKey)
     = Some (PStr (str_int now)) /\
     dict_get "conversationId" (installments_request now binNumber amount)
     = Some (PStr (str_int now))) /\
  (forall now now' : Z,
     0 <= now -> 0 <= now' -> now <> now' -> str_int now <> str_int now').
Proof.
  split; [intros; repeat split|].
  intros a b Ha Hb Hab E. apply Hab. unfold str_int in E.
  destruct (Z.ltb_spec a 0); [lia|]. destruct (Z.ltb_spec b 0); [lia|].
  apply digits_of_inj; auto. apply string_of_list_ascii_inj; exact E.
Qed.

Lemma clock_conversation_ids_witness :
  str_int 1700000000 <> str_int 1700000001.
Proof.
  apply (proj2 clock_conversation_ids); lia.
Defined.

(** X7: in a success response the client's [transactionId] is the
    processor's [paymentId], the same value as the response's [paymentId],
    and not the conversation identifier. *)
Theorem transaction_id_is_payment_id (d : pydict) (response : pydict) :
  map_payment_response (PDict d) = Ok (PDict response) ->
  dict_get "success" response = Some (PBool true) ->
  dict_get "transactionId" response = Some (get_default d "paymentId" PNone) /\
  dict_get "paymentId" response = Some (get_default d "paymentId" PNone).
Proof.
  rewrite respond_dict.
  destruct (eq_str (get_default d "status" PNone) "success").
  - destruct (py_float (get_default d "price" (PInt 0))); [|discriminate].
    cbn [bind].
    destruct (py_float (get_default d "paidPrice" (PInt 0))); [|discriminate].
    cbn [bind]. intro E; injection E as <-. intros _. split; reflexivity.
  - intro E; injection E as <-. discriminate.
Qed.

Lemma transaction_id_is_payment_id_witness :
  exists response,
    map_payment_response
      (PDict [("status", PStr "success"); ("paymentId", PStr "PAY1");
              ("conversationId", PStr "ORD1")])
    = Ok (PDict response) /\
    dict_get "transactionId" response = Some (PStr "PAY1").
Proof.
  eexists; split; [vm_compute; reflexivity|].
  apply (transaction_id_is_payment_id
           [("status", PStr "success"); ("paymentId", PStr "PAY1");
            ("conversationId", PStr "ORD1")]);
    vm_compute; reflexivity.
Defined.

(** ** Handlers *)

Lemma processor_answers_iff iyzipay json_loads call request v :
  processor_answers iyzipay json_loads call request v <->
  call_processor iyzipay json_loads call request = Ok v.
Proof.
  unfold processor_answers, call_processor, lift.
  destruct (iyzipay call request) as [r | e]; cbn [bind].
  - split.
    + intros [[E Hv] | (s & E & Hs)].
      * injection E as ->. destruct v; try reflexivity. destruct (Hv s eq_refl).
      * injection E as ->. rewrite Hs. reflexivity.
    + intro H. destruct r as [| | | | s | |];
        try (injection H as <-; left; split; [reflexivity | discriminate]).
      right. exists s. split; [reflexivity|].
      destruct (json_loads s); [injection H as ->; reflexivity | discriminate].
  - split; [intros [[E _] | (s & E & _)]; discriminate | discriminate].
Qed.

Lemma processor_fails_iff iyzipay json_loads call request e :
  processor_fails iyzipay json_loads call request e <->
  call_processor iyzipay json_loads call request = Raise (Other e).
Proof.
  unfold processor_fails, call_processor, lift.
  destruct (iyzipay call request) as [r | e']; cbn [bind].
  - split.
    + intros [E | (s & E & Hs)]; [discriminate|].
      injection E as ->. rewrite Hs. reflexivity.
    + intro H. destruct r as [| | | | s | |]; try discriminate.
      right. exists s. split; [reflexivity|].
      destruct (json_loads s); [discriminate | injection H as ->; reflexivity].
  - split.
    + intros [E | (s & E & _)]; [injection E as ->; reflexivity | discriminate].
    + intro H; injection H as ->. left; reflexivity.
Qed.

Section HandlerProperties.

Variable iyzipay : sdk_call -> pydict -> pyval + pyerror.
Variable json_loads : string -> pyval + pyerror.
Variable str_error : pyerror -> string.
Variable now : Z.

(** X8: an exception raised by the SDK, and one raised by the decoding of a
    string body, end every handler with a 500 whose envelope has the code
    "server_error" and the exception's own text as message. *)
Theorem exceptions_become_server_error (e : pyerror) :
  let failed (r : exc pyval) :=
    r = Raise (HTTPException 500 (server_error (str_error e))) in
  (forall request,
     processor_fails iyzipay json_loads Payment_create
       (map_payment_request request) e ->
     failed (create_payment iyzipay json_loads str_error request)) /\
  (forall request,
     processor_fails iyzipay json_loads ThreedsInitialize_create
       (init_3ds_request request) e ->
     failed (init_3ds_payment iyzipay json_loads str_error request)) /\
  (forall request,
     processor_fails iyzipay json_loads ThreedsPayment_create
       (complete_3ds_request request) e ->
     failed (complete_3ds_payment iyzipay json_loads str_error request)) /\
  (forall binNumber amount,
     installments_violations binNumber amount = [] ->
     processor_fails iyzipay json_loads InstallmentInfo_retrieve
       (installments_request now binNumber amount) e ->
     failed (get_installments iyzipay json_loads str_error now binNumber amount)) /\
  (forall request,
     processor_fails iyzipay json_loads Refund_create
       (refund_request now request) e ->
     failed (refund_payment iyzipay json_loads str_error now request)) /\
  (forall payment_id,
     processor_fails iyzipay json_loads Payment_retrieve
       (status_request now payment_id) e ->
     failed (get_payment_status iyzipay json_loads str_error now payment_id)) /\
  (forall cardUserKey,
     processor_fails iyzipay json_loads CardList_retrieve
       (cards_request now cardUserKey) e ->
     failed (list_saved_cards iyzipay json_loads str_error now cardUserKey)) /\
  (forall request,
     processor_fails iyzipay json_loads Payment_create
       (charge_request request) e ->
     failed (charge_saved_card iyzipay json_loads str_error request)) /\
  (forall card_token cardUserKey,
     processor_fails iyzipay json_loads Card_delete
       (delete_request now card_token cardUserKey) e ->
     failed (delete_saved_card iyzipay json_loads str_error now
               card_token cardUserKey)).
Proof.
  intro failed; unfold failed; repeat split; intros;
    match goal with
    | H : processor_fails _ _ _ _ _ |- _ =>
        apply processor_fails_iff in H;
        cbv delta [init_3ds_request status_request cards_request
                     delete_request] in H
    end.
  - unfold create_payment; cbv zeta. rewrite H. reflexivity.
  - unfold init_3ds_payment; cbv zeta. rewrite H. reflexivity.
  - unfold complete_3ds_payment; cbv zeta. rewrite H. reflexivity.
  - unfold get_installments; rewrite H; cbv zeta. rewrite H0. reflexivity.
  - unfold refund_payment; cbv zeta. rewrite H. reflexivity.
  - unfold get_payment_status; cbv zeta. rewrite H. reflexivity.
  - unfold list_saved_cards; cbv zeta. rewrite H. reflexivity.
  - unfold charge_saved_card; cbv zeta. rewrite H. reflexivity.
  - unfold delete_saved_card; cbv zeta. rewrite H. reflexivity.
Qed.

Ltac use_answer :=
  repeat match goal with
         | H : processor_answers _ _ _ _ _ |- _ =>
             apply processor_answers_iff in H;
             cbv delta [init_3ds_request status_request cards_request
                          delete_request] in H
         end.

(** X9: a handler's outcome depends on the processor only through the
    answer to its one call: two processors that give the same answer to that
    call, as a value or as a string that decodes to it, lead to the same
    outcome. *)
Theorem handlers_depend_on_one_answer
    (iyzipay' : sdk_call -> pydict -> pyval + pyerror)
    (json_loads' : string -> pyval + pyerror) (v : pyval) :
  (forall request,
     processor_answers iyzipay json_loads Payment_create
       (map_payment_request request) v ->
     processor_answers iyzipay' json_loads' Payment_create
       (map_payment_request request) v ->
     create_payment iyzipay json_loads str_error request
     = create_payment iyzipay' json_loads' str_error request) /\
  (forall request,
     processor_answers iyzipay json_loads ThreedsInitialize_create
       (init_3ds_request request) v ->
     processor_answers iyzipay' json_loads' ThreedsInitialize_create
       (init_3ds_request request) v ->
     init_3ds_payment iyzipay json_loads str_error request
     = init_3ds_payment iyzipay' json_loads' str_error request) /\
  (forall request,
     processor_answers iyzipay json_loads ThreedsPayment_create
       (complete_3ds_request request) v ->
     processor_answers iyzipay' json_loads' ThreedsPayment_create
       (complete_3ds_request request) v ->
     complete_3ds_payment iyzipay json_loads str_error request
     = complete_3ds_payment iyzipay' json_loads' str_error request) /\
  (forall binNumber amount,
     processor_answers iyzipay json_loads InstallmentInfo_retrieve
       (installments_request now binNumber amount) v ->
     processor_answers iyzipay' json_loads' InstallmentInfo_retrieve
       (installments_request now binNumber amount) v ->
     get_installments iyzipay json_loads str_error now binNumber amount
     = get_installments iyzipay' json_loads' str_error now binNumber amount) /\
  (forall request,
     processor_answers iyzipay json_loads Refund_create
       (refund_request now request) v ->
     processor_answers iyzipay' json_loads' Refund_create
       (refund_request now request) v ->
     refund_payment iyzipay json_loads str_error now request
     = refund_payment iyzipay' json_loads' str_error now request) /\
  (forall payment_id,
     processor_answers iyzipay json_loads Payment_retrieve
       (status_request now payment_id) v ->
     processor_answers iyzipay' json_loads' Payment_retrieve
       (status_request now payment_id) v ->
     get_payment_status iyzipay json_loads str_error now payment_id
     = get_payment_status iyzipay' json_loads' str_error now payment_id) /\
  (forall cardUserKey,
     processor_answers iyzipay json_loads CardList_retrieve
       (cards_request now cardUserKey) v ->
     processor_answers iyzipay' json_loads' CardList_retrieve
       (cards_request now cardUserKey) v ->
     list_saved_cards iyzipay json_loads str_error now cardUserKey
     = list_saved_cards iyzipay' json_loads' str_error now cardUserKey) /\
  (forall request,
     processor_answers iyzipay json_loads Payment_create
       (charge_request request) v ->
     processor_answers iyzipay' json_loads' Payment_create
       (charge_request request) v ->
     charge_saved_card iyzipay json_loads str_error request
     = charge_saved_card iyzipay' json_loads' str_error request) /\
  (forall card_token cardUserKey,
     processor_answers iyzipay json_loads Card_delete
       (delete_request now card_token cardUserKey) v ->
     processor_answers iyzipay' json_loads' Card_delete
       (delete_request now card_token cardUserKey) v ->
     delete_saved_card iyzipay json_loads str_error now card_token cardUserKey
     = delete_saved_card iyzipay' json_loads' str_error now
         card_token cardUserKey).
Proof.
  repeat split; intros; use_answer.
  - unfold create_payment; cbv zeta. rewrite H, H0. reflexivity.
  - unfold init_3ds_payment; cbv zeta. rewrite H, H0. reflexivity.
  - unfold complete_3ds_payment; cbv zeta. rewrite H, H0. reflexivity.
  - unfold get_installments; cbv zeta. rewrite H, H0. reflexivity.
  - unfold refund_payment; cbv zeta. rewrite H, H0. reflexivity.
  - unfold get_payment_status; cbv zeta. rewrite H, H0. reflexivity.
  - unfold list_saved_cards; cbv zeta. rewrite H, H0. reflexivity.
  - unfold charge_saved_card; cbv zeta. rewrite H, H0. reflexivity.
  - unfold delete_saved_card; cbv zeta. rewrite H, H0. reflexivity.
Qed.

Lemma returns_success_bind {A : Type} (m : exc A) (f : A -> exc pyval) :
  (forall a, returns_success (f a)) -> returns_success (bind m f).
Proof. destruct m; simpl; auto. Qed.

Lemma returns_success_if (b : bool) (x y : exc pyval) :
  returns_success x -> returns_success y ->
  returns_success (if b then x else y).
Proof. destruct b; auto. Qed.

Lemma returns_success_guarded (body : exc pyval) :
  returns_success body -> returns_success (guarded str_error body).
Proof. destruct body as [a | [s d | e]]; simpl; auto. Qed.

Lemma returns_success_raise_failure (result : pyval) (code message : string) :
  returns_success (raise_failure result code message).
Proof.
  unfold raise_failure.
  apply returns_success_bind; intro c.
  apply returns_success_bind; intro m. exact I.
Qed.

Lemma returns_success_respond (result : pyval) :
  returns_success (respond result).
Proof.
  unfold respond.
  destruct result as [| | | | | |d];
    try (unfold map_payment_response, py_get; exact I).
  rewrite respond_dict.
  destruct (eq_str (get_default d "status" PNone) "success"); [|exact I].
  destruct (py_float (get_default d "price" (PInt 0))); [|exact I].
  cbn [bind].
  destruct (py_float (get_default d "paidPrice" (PInt 0))); [|exact I].
  exact eq_refl.
Qed.

Ltac success_step :=
  first
    [ apply returns_success_raise_failure
    | apply returns_success_respond
    | apply returns_success_if
    | apply returns_success_bind; intro
    | exact eq_refl
    | exact I ].

(** X10: what a handler returns, as opposed to raises, is always a dict
    whose [success] is [True]: a failure of the processor is never returned
    as a response. *)
Theorem returned_bodies_say_success :
  (forall request,
     returns_success (create_payment iyzipay json_loads str_error request)) /\
  (forall request,
     returns_success (init_3ds_payment iyzipay json_loads str_error request)) /\
  (forall request,
     returns_success
       (complete_3ds_payment iyzipay json_loads str_error request)) /\
  (forall binNumber amount,
     returns_success
       (get_installments iyzipay json_loads str_error now binNumber amount)) /\
  (forall request,
     returns_success (refund_payment iyzipay json_loads str_error now request)) /\
  (forall payment_id,
     returns_success
       (get_payment_status iyzipay json_loads str_error now payment_id)) /\
  (forall cardUserKey,
     returns_success
       (list_saved_cards iyzipay json_loads str_error now cardUserKey)) /\
  (forall request,
     returns_success (charge_saved_card iyzipay json_loads str_error request)) /\
  (forall card_token cardUserKey,
     returns_success
       (delete_saved_card iyzipay json_loads str_error now
          card_token cardUserKey)).
Proof.
  repeat split; intros;
    try (apply returns_success_guarded; cbv zeta; repeat success_step).
  unfold get_installments.
  destruct (installments_violations _ _); [|exact I].
  apply returns_success_guarded; cbv zeta; repeat success_step.
Qed.

Lemma status_shape_guarded (body : exc pyval) :
  well_shaped body -> status_shape (guarded str_error body).
Proof.
  destruct body as [a | [s d | e]]; simpl; auto.
  intros _. right. split; [reflexivity|]. eexists; reflexivity.
Qed.

#[local] Hint Resolve quiet_lift quiet_call_processor
  well_shaped_raise_failure well_shaped_respond well_shaped_quiet
  well_shaped_if : shape.

Ltac body_step :=
  first
    [ apply well_shaped_raise_failure
    | apply well_shaped_respond
    | apply well_shaped_if
    | apply well_shaped_bind; [solve [auto 10 with shape] | intro]
    | exact I ].

(** X11: the status of an [HTTPException] tells where it comes from: a 400
    carries an envelope built from the processor's result, and a 500 always
    carries the code "server_error"; no handler raises another status. *)
Theorem status_tells_the_origin :
  (forall request,
     status_shape (create_payment iyzipay json_loads str_error request)) /\
  (forall request,
     status_shape (init_3ds_payment iyzipay json_loads str_error request)) /\
  (forall request,
     status_shape (complete_3ds_payment iyzipay json_loads str_error request)) /\
  (forall binNumber amount,
     status_shape
       (get_installments iyzipay json_loads str_error now binNumber amount)) /\
  (forall request,
     status_shape (refund_payment iyzipay json_loads str_error now request)) /\
  (forall payment_id,
     status_shape
       (get_payment_status iyzipay json_loads str_error now payment_id)) /\
  (forall cardUserKey,
     status_shape
       (list_saved_cards iyzipay json_loads str_error now cardUserKey)) /\
  (forall request,
     status_shape (charge_saved_card iyzipay json_loads str_error request)) /\
  (forall card_token cardUserKey,
     status_shape
       (delete_saved_card iyzipay json_loads str_error now
          card_token cardUserKey)).
Proof.
  repeat split; intros;
    try (apply status_shape_guarded; cbv zeta; repeat body_step).
  - unfold get_installments.
    destruct (installments_violations _ _); [|exact I].
    apply status_shape_guarded; cbv zeta; repeat body_step.
    unfold installment_option; auto 20 with shape.
  - unfold saved_card; auto 20 with shape.
Qed.

(** X12: when the processor's result is not a success, create-payment,
    complete-3DS and charge-saved-card raise a 400 with the result's
    [errorCode] and [errorMessage], and with "unknown" and "Unknown error"
    where the result has none. *)
Theorem unknown_is_the_default_code (d : pydict) :
  is_success d = false ->
  (forall request,
     processor_answers iyzipay json_loads Payment_create
       (map_payment_request request) (PDict d) ->
     create_payment iyzipay json_loads str_error request
     = rejection d "unknown" "Unknown error") /\
  (forall request,
     processor_answers iyzipay json_loads ThreedsPayment_create
       (complete_3ds_request request) (PDict d) ->
     complete_3ds_payment iyzipay json_loads str_error request
     = rejection d "unknown" "Unknown error") /\
  (forall request,
     processor_answers iyzipay json_loads Payment_create
       (charge_request request) (PDict d) ->
     charge_saved_card iyzipay json_loads str_error request
     = rejection d "unknown" "Unknown error").
Proof.
  unfold is_success; intro Hs.
  assert (R : guarded str_error (respond (PDict d))
              = rejection d "unknown" "Unknown error").
  { unfold respond. rewrite respond_dict, Hs. reflexivity. }
  repeat split; intros; use_answer.
  - unfold create_payment; cbv zeta. rewrite H. exact R.
  - unfold complete_3ds_payment; cbv zeta. rewrite H. exact R.
  - unfold charge_saved_card; cbv zeta. rewrite H. exact R.
Qed.

(** X13: when the processor's result is not a success, installments, status
    and list-cards raise a 400 with the result's [errorCode] and
    [errorMessage], and with their own defaults where the result has none:
    "no_installments", "status_check_failed" and "cards_list_failed". *)
Theorem query_handlers_default_codes (d : pydict) :
  is_success d = false ->
  (forall binNumber amount,
     installments_violations binNumber amount = [] ->
     processor_answers iyzipay json_loads InstallmentInfo_retrieve
       (installments_request now binNumber amount) (PDict d) ->
     get_installments iyzipay json_loads str_error now binNumber amount
     = rejection d "no_installments" "No installment options found") /\
  (forall payment_id,
     processor_answers iyzipay json_loads Payment_retrieve
       (status_request now payment_id) (PDict d) ->
     get_payment_status iyzipay json_loads str_error now payment_id
     = rejection d "status_check_failed" "Status check failed") /\
  (forall cardUserKey,
     processor_answers iyzipay json_loads CardList_retrieve
       (cards_request now cardUserKey) (PDict d) ->
     list_saved_cards iyzipay json_loads str_error now cardUserKey
     = rejection d "cards_list_failed" "Failed to list cards").
Proof.
  unfold is_success; intro Hs. repeat split; intros; use_answer.
  - unfold get_installments; rewrite H; cbv zeta. rewrite H0.
    cbn [bind py_get]. rewrite Hs. reflexivity.
  - unfold get_payment_status; cbv zeta. rewrite H.
    cbn [bind py_get]. rewrite Hs. reflexivity.
  - unfold list_saved_cards; cbv zeta. rewrite H.
    cbn [bind py_get]. rewrite Hs. reflexivity.
Qed.

(** X14: a success result of the processor with no installment details
    (the key absent, or an empty list) is answered like a rejection: a 400
    with the result's own [errorCode] or "no_installments". *)
Theorem no_installment_details_is_a_rejection
    (d : pydict) (binNumber : string) (amount : float) :
  installments_violations binNumber amount = [] ->
  processor_answers iyzipay json_loads InstallmentInfo_retrieve
    (installments_request now binNumber amount) (PDict d) ->
  is_success d = true ->
  dict_get "installmentDetails" d = None \/
  dict_get "installmentDetails" d = Some (PList []) ->
  get_installments iyzipay json_loads str_error now binNumber amount
  = rejection d "no_installments" "No installment options found".
Proof.
  unfold is_success; intros Hv H Hs Hd. use_answer.
  assert (E : get_default d "installmentDetails" (PList []) = PList [])
    by (unfold get_default; destruct Hd as [-> | ->]; reflexivity).
  unfold get_installments; rewrite Hv; cbv zeta. rewrite H.
  cbn [bind py_get]. rewrite Hs, E. reflexivity.
Qed.

(** X15: only the first installment detail is answered: the entries after
    it, and everything else in the result, change nothing. *)
Theorem only_first_installment_detail
    (iyzipay' : sdk_call -> pydict -> pyval + pyerror)
    (json_loads' : string -> pyval + pyerror)
    (d d' : pydict) (detail : pyval) (rest : list pyval)
    (binNumber : string) (amount : float) :
  processor_answers iyzipay json_loads InstallmentInfo_retrieve
    (installments_request now binNumber amount) (PDict d) ->
  processor_answers iyzipay' json_loads' InstallmentInfo_retrieve
    (installments_request now binNumber amount) (PDict d') ->
  is_success d = true -> is_success d' = true ->
  dict_get "installmentDetails" d = Some (PList (detail :: rest)) ->
  dict_get "installmentDetails" d' = Some (PList [detail]) ->
  get_installments iyzipay json_loads str_error now binNumber amount
  = get_installments iyzipay' json_loads' str_error now binNumber amount.
Proof.
  unfold is_success; intros H H' Hs Hs' Hd Hd'. use_answer.
  unfold get_installments.
  destruct (installments_violations binNumber amount); [|reflexivity].
  cbv zeta. rewrite H, H'. cbn [bind py_get]. rewrite Hs, Hs'.
  unfold get_default. rewrite Hd, Hd'. reflexivity.
Qed.

Lemma mapM_Forall2 {A B : Type} (f : A -> exc B) (l : list A) (l' : list B) :
  mapM f l = Ok l' -> Forall2 (fun a b => f a = Ok b) l l'.
Proof.
  revert l'; induction l as [|a l IH]; intros l' H; simpl in H.
  - injection H as <-. constructor.
  - destruct (f a) as [b|] eqn:E; [|discriminate]. cbn [bind] in H.
    destruct (mapM f l) as [bs|]; [|discriminate]. cbn [bind] in H.
    injection H as <-. constructor; auto.
Qed.

(** X16: the installment options answered are those of the first detail,
    one for each of its [installmentPrices] and in the same order, each
    with its two prices converted to numbers; a detail with no
    [installmentPrices] is answered with no option. *)
Theorem installment_options_in_order
    (d detail : pydict) (rest prices options : list pyval)
    (binNumber : string) (amount : float) :
  installments_violations binNumber amount = [] ->
  processor_answers iyzipay json_loads InstallmentInfo_retrieve
    (installments_request now binNumber amount) (PDict d) ->
  is_success d = true ->
  dict_get "installmentDetails" d = Some (PList (PDict detail :: rest)) ->
  get_default detail "installmentPrices" (PList []) = PList prices ->
  mapM installment_option prices = Ok options ->
  get_installments iyzipay json_loads str_error now binNumber amount
  = Ok (PDict
          [("success", PBool true);
           ("binNumber", get_default detail "binNumber" PNone);
           ("bankName", get_default detail "bankName" PNone);
           ("bankCode", get_default detail "bankCode" PNone);
           ("cardType", get_default detail "cardType" PNone);
           ("cardAssociation", get_default detail "cardAssociation" PNone);
           ("options", PList options)]) /\
  Forall2 (fun price option => installment_option price = Ok option)
    prices options /\
  List.length options = List.length prices.
Proof.
  unfold is_success; intros Hv H Hs Hd Hp Hm. use_answer.
  split; [|split].
  - unfold get_installments; rewrite Hv; cbv zeta. rewrite H.
    cbn [bind py_get]. rewrite Hs.
    rewrite (get_default_present _ _ _ _ Hd).
    cbn [truthy py_first bind py_get]. rewrite Hp.
    cbn [py_iter bind]. rewrite Hm. reflexivity.
  - apply mapM_Forall2; exact Hm.
  - symmetry. apply (Forall2_length (mapM_Forall2 _ _ _ Hm)).
Qed.

Lemma mapM_saved_card (cards : list pydict) :
  mapM saved_card (map PDict cards) = Ok (map card_view cards).
Proof.
  induction cards as [|c cards IH]; [reflexivity|].
  cbn [map mapM]. rewrite IH. reflexivity.
Qed.

(** X17: on a success result list-cards answers one card for each entry of
    [cardDetails], in the same order, with the six fields of the entry and
    null for those it lacks; with no [cardDetails] the answer is an empty
    list. *)
Theorem saved_cards_in_order (d : pydict) (cards : list pydict)
    (cardUserKey : string) :
  processor_answers iyzipay json_loads CardList_retrieve
    (cards_request now cardUserKey) (PDict d) ->
  is_success d = true ->
  get_default d "cardDetails" (PList []) = PList (map PDict cards) ->
  list_saved_cards iyzipay json_loads str_error now cardUserKey
  = Ok (PDict [("success", PBool true);
               ("cards", PList (map card_view cards))]).
Proof.
  unfold is_success; intros H Hs Hc. use_answer.
  unfold list_saved_cards; cbv zeta. rewrite H.
  cbn [bind py_get]. rewrite Hs, Hc.
  cbn [py_iter bind]. rewrite mapM_saved_card. reflexivity.
Qed.

Lemma mapM_saved_card_stops (cards : list pydict) (v : pyval)
    (rest : list pyval) :
  (forall c, v <> PDict c) ->
  mapM saved_card (map PDict cards ++ v :: rest)
  = Raise (Other (AttributeError v "get")).
Proof.
  intro Hv. induction cards as [|c cards IH].
  - cbn [map app mapM]. destruct v; try reflexivity. destruct (Hv d eq_refl).
  - cbn [map app mapM]. rewrite IH. reflexivity.
Qed.

(** X18: one entry of [cardDetails] that is not a dict loses the whole
    list: list-cards ends with a 500 "server_error" although the processor
    reported a success. *)
Theorem one_bad_card_loses_the_list (d : pydict) (cards : list pydict)
    (v : pyval) (rest : list pyval) (cardUserKey : string) :
  processor_answers iyzipay json_loads CardList_retrieve
    (cards_request now cardUserKey) (PDict d) ->
  is_success d = true ->
  dict_get "cardDetails" d = Some (PList (map PDict cards ++ v :: rest)) ->
  (forall c, v <> PDict c) ->
  list_saved_cards iyzipay json_loads str_error now cardUserKey
  = Raise (HTTPException 500
             (server_error (str_error (AttributeError v "get")))).
Proof.
  unfold is_success; intros H Hs Hc Hv. use_answer.
  unfold list_saved_cards; cbv zeta. rewrite H.
  cbn [bind py_get]. rewrite Hs. unfold get_default. rewrite Hc.
  cbn [py_iter bind]. rewrite (mapM_saved_card_stops cards v rest Hv).
  reflexivity.
Qed.

(** X19: on a success result the payment status answered is "success" only
    when [paymentStatus] is the string "1"; any other value, the number 1
    included, and an absent [paymentStatus] give "pending". *)
Theorem payment_status_mapping (d : pydict) (payment_id : string) :
  processor_answers iyzipay json_loads Payment_retrieve
    (status_request now payment_id) (PDict d) ->
  is_success d = true ->
  let answered (s : string) :=
    get_payment_status iyzipay json_loads str_error now payment_id
    = Ok (PDict [("success", PBool true); ("status", PStr s)]) in
  (dict_get "paymentStatus" d = Some (PStr "1") -> answered "success") /\
  (dict_get "paymentStatus" d = None -> answered "pending") /\
  (forall v, dict_get "paymentStatus" d = Some v -> v <> PStr "1" ->
             answered "pending").
Proof.
  intros H Hs answered. unfold is_success in Hs. use_answer.
  assert (E : get_payment_status iyzipay json_loads str_error now payment_id
              = Ok (PDict
                      [("success", PBool true);
                       ("status",
                         PStr (if eq_str (get_default d "paymentStatus" PNone) "1"
                               then "success" else "pending"))])).
  { unfold get_payment_status; cbv zeta. rewrite H.
    cbn [bind py_get]. rewrite Hs. reflexivity. }
  unfold answered, get_default in *. repeat split.
  - intro Hp. rewrite E, Hp. reflexivity.
  - intro Hp. rewrite E, Hp. reflexivity.
  - intros v Hp Hv. rewrite E, Hp.
    destruct v as [| | | | s | |]; try reflexivity.
    cbn [eq_str]. destruct (String.eqb_spec s "1"); [subst; contradiction|].
    reflexivity.
Qed.

(** X20: when the processor accepts a refund and echoes the [price] it was
    sent, the [refundedAmount] answered is exactly the amount asked. *)
Theorem refund_round_trip (d : pydict) (request : RefundRequest) :
  float_valid (refund_amount request) = true ->
  processor_answers iyzipay json_loads Refund_create
    (refund_request now request) (PDict d) ->
  is_success d = true ->
  dict_get "price" d = dict_get "price" (refund_request now request) ->
  refund_payment iyzipay json_loads str_error now request
  = Ok (PDict
          [("success", PBool true);
           ("refundId", get_default d "paymentTransactionId" PNone);
           ("refundedAmount", PFloat (refund_amount request))]).
Proof.
  unfold is_success; intros Hv H Hs Hp. use_answer.
  assert (E : get_default d "price" (PInt 0)
              = PStr (str_float (refund_amount request)))
    by (unfold get_default; rewrite Hp; reflexivity).
  unfold refund_payment; cbv zeta. rewrite H.
  cbn [bind py_get]. rewrite Hs, E.
  cbn [py_float]. rewrite (float_of_string_str_float _ Hv). reflexivity.
Qed.

(** X21: a success result whose [price] or [paidPrice] cannot be converted
    to a number (null, a list, a string that is not a number) ends
    create-payment, complete-3DS and charge-saved-card with a 500
    "server_error", although the processor accepted the payment. *)
Theorem unreadable_amount_is_a_server_error (d : pydict) (e : pyerror) :
  is_success d = true ->
  py_float (get_default d "price" (PInt 0)) = Raise (Other e) \/
  (exists a, py_float (get_default d "price" (PInt 0)) = Ok a /\
             py_float (get_default d "paidPrice" (PInt 0)) = Raise (Other e)) ->
  let failed (r : exc pyval) :=
    r = Raise (HTTPException 500 (server_error (str_error e))) in
  (forall request,
     processor_answers iyzipay json_loads Payment_create
       (map_payment_request request) (PDict d) ->
     failed (create_payment iyzipay json_loads str_error request)) /\
  (forall request,
     processor_answers iyzipay json_loads ThreedsPayment_create
       (complete_3ds_request request) (PDict d) ->
     failed (complete_3ds_payment iyzipay json_loads str_error request)) /\
  (forall request,
     processor_answers iyzipay json_loads Payment_create
       (charge_request request) (PDict d) ->
     failed (charge_saved_card iyzipay json_loads str_error request)).
Proof.
  intros Hs He failed; unfold failed. unfold is_success in Hs.
  assert (R : guarded str_error (respond (PDict d))
              = Raise (HTTPException 500 (server_error (str_error e)))).
  { unfold respond. rewrite respond_dict, Hs.
    destruct He as [-> | (a & -> & E)]; [reflexivity|].
    cbn [bind]. rewrite E. reflexivity. }
  repeat split; intros; use_answer.
  - unfold create_payment; cbv zeta. rewrite H. exact R.
  - unfold complete_3ds_payment; cbv zeta. rewrite H. exact R.
  - unfold charge_saved_card; cbv zeta. rewrite H. exact R.
Qed.

(** X22: when the processor accepts a 3DS initialization and echoes the
    [conversationId] it was sent, the [transactionId] answered is the
    request's [orderId], and completing with that [transactionId] addresses
    the same conversation. *)
Theorem three_ds_correlation (d : pydict) (request : PaymentRequest) :
  processor_answers iyzipay json_loads ThreedsInitialize_create
    (init_3ds_request request) (PDict d) ->
  is_success d = true ->
  dict_get "conversationId" d
  = dict_get "conversationId" (init_3ds_request request) ->
  init_3ds_payment iyzipay json_loads str_error request
  = Ok (PDict
          [("success", PBool true);
           ("status", PStr "pending");
           ("transactionId", PStr (orderId request));
           ("htmlContent", get_default d "threeDSHtmlContent" PNone)]) /\
  (forall callback,
     dict_get "conversationId"
       (complete_3ds_request
          {| transactionId := orderId request; callbackData := callback |})
     = dict_get "conversationId" (init_3ds_request request)).
Proof.
  unfold is_success; intros H Hs Hc.
  assert (E : dict_get "conversationId" (init_3ds_request request)
              = Some (PStr (orderId request))).
  { unfold init_3ds_request. rewrite dict_get_set_other by discriminate.
    reflexivity. }
  rewrite E in *. use_answer. split; [|reflexivity].
  unfold init_3ds_payment; cbv zeta. rewrite H.
  cbn [bind py_get]. rewrite Hs.
  rewrite (get_default_present _ _ _ _ Hc). reflexivity.
Qed.

(** X23: an installments query is let through exactly when the BIN has 6 to
    8 characters and the amount is above zero (a nan is not); a query that
    is not let through never reaches the processor: the outcome is the same
    whatever the processor, the decoder and the clock. *)
Theorem refused_query_never_reaches_the_processor
    (binNumber : string) (amount : float) :
  (installments_violations binNumber amount = [] <->
   6 <= Z.of_nat (String.length binNumber) <= 8 /\
   float_gt_zero amount = true) /\
  (installments_violations binNumber amount <> [] ->
   forall iyzipay' json_loads' str_error' now',
     get_installments iyzipay json_loads str_error now binNumber amount
     = get_installments iyzipay' json_loads' str_error' now' binNumber amount).
Proof.
  split.
  - unfold installments_violations; cbv zeta.
    destruct (Z.leb_spec 6 (Z.of_nat (String.length binNumber)));
      destruct (Z.leb_spec (Z.of_nat (String.length binNumber)) 8);
      destruct (float_gt_zero amount); cbn [andb app];
      split; try discriminate; try (intros [? ?]; try lia; discriminate);
      intros _; split; try lia; reflexivity.
  - intros Hv iyzipay' json_loads' str_error' now'.
    unfold get_installments.
    destruct (installments_violations binNumber amount);
      [contradiction | reflexivity].
Qed.

End HandlerProperties.

(** ** The further properties at concrete inputs *)

Lemma answers_value (v : pyval) (call : sdk_call) (request : pydict) :
  (forall s, v <> PStr s) ->
  processor_answers (answers v) no_json call request v.
Proof. intro H; left; split; [reflexivity | exact H]. Qed.

Lemma exceptions_become_server_error_witness :
  create_payment unreachable no_json message_of (sample_request None)
  = Raise (HTTPException 500 (server_error "connection refused")).
Proof.
  apply (proj1 (exceptions_become_server_error unreachable no_json message_of 0
                  (Raised "connection refused"))).
  left; reflexivity.
Defined.

Lemma handlers_depend_on_one_answer_witness :
  create_payment (answers declined) no_json message_of (sample_request None)
  = create_payment (answers (PStr "{}")) (decodes_to declined) message_of
      (sample_request None).
Proof.
  apply (proj1 (handlers_depend_on_one_answer (answers declined) no_json
                  message_of 0 (answers (PStr "{}")) (decodes_to declined)
                  declined)).
  - apply answers_value; discriminate.
  - right; exists "{}"; split; reflexivity.
Defined.

Lemma unknown_is_the_default_code_witness :
  charge_saved_card (answers (PDict [("status", PStr "failure")])) no_json
    message_of sample_charge
  = Raise (HTTPException 400
             (failure_envelope (PStr "unknown") (PStr "Unknown error"))).
Proof.
  apply (proj2 (proj2 (unknown_is_the_default_code
                         (answers (PDict [("status", PStr "failure")]))
                         no_json message_of
                         [("status", PStr "failure")] eq_refl))).
  apply answers_value; discriminate.
Defined.

Lemma query_handlers_default_codes_witness :
  get_payment_status (answers (PDict [("status", PStr "failure")])) no_json
    message_of 0 "PAY1"
  = Raise (HTTPException 400
             (failure_envelope (PStr "status_check_failed")
                (PStr "Status check failed"))).
Proof.
  apply (proj1 (proj2 (query_handlers_default_codes
                         (answers (PDict [("status", PStr "failure")]))
                         no_json message_of 0
                         [("status", PStr "failure")] eq_refl))).
  apply answers_value; discriminate.
Defined.

Lemma no_installment_details_is_a_rejection_witness :
  get_installments (answers (PDict [("status", PStr "success")])) no_json
    message_of 0 "552879" hundred
  = Raise (HTTPException 400
             (failure_envelope (PStr "no_installments")
                (PStr "No installment options found"))).
Proof.
  apply (no_installment_details_is_a_rejection
           (answers (PDict [("status", PStr "success")])) no_json message_of 0
           [("status", PStr "success")] "552879" hundred).
  - reflexivity.
  - apply answers_value; discriminate.
  - reflexivity.
  - left; reflexivity.
Defined.

Lemma only_first_installment_detail_witness :
  get_installments (answers (PDict installments_found)) no_json message_of 0
    "552879" hundred
  = get_installments
      (answers (PDict [("installmentDetails", PList [PDict sample_detail]);
                       ("status", PStr "success")]))
      no_json message_of 0 "552879" hundred.
Proof.
  apply (only_first_installment_detail
           (answers (PDict installments_found)) no_json message_of 0
           (answers (PDict [("installmentDetails", PList [PDict sample_detail]);
                            ("status", PStr "success")]))
           no_json installments_found
           [("installmentDetails", PList [PDict sample_detail]);
            ("status", PStr "success")]
           (PDict sample_detail) [PNone] "552879" hundred).
  - apply answers_value; discriminate.
  - apply answers_value; discriminate.
  - reflexivity.
  - reflexivity.
  - reflexivity.
  - reflexivity.
Defined.

Lemma installment_options_in_order_witness :
  get_installments (answers (PDict installments_found)) no_json message_of 0
    "552879" hundred
  = Ok (PDict
          [("success", PBool true);
           ("binNumber", PStr "552879");
           ("bankName", PStr "Bank");
           ("bankCode", PNone);
           ("cardType", PNone);
           ("cardAssociation", PNone);
           ("options",
             PList [PDict [("installmentNumber", PInt 3);
                           ("installmentPrice", PFloat hundred);
                           ("totalPrice", PFloat hundred)]])]).
Proof.
  apply (proj1 (installment_options_in_order
                  (answers (PDict installments_found)) no_json message_of 0
                  installments_found sample_detail [PNone]
                  [PDict sample_price]
                  [PDict [("installmentNumber", PInt 3);
                          ("installmentPrice", PFloat hundred);
                          ("totalPrice", PFloat hundred)]]
                  "552879" hundred eq_refl
                  (answers_value (PDict installments_found) _ _
                     ltac:(discriminate))
                  eq_refl eq_refl eq_refl eq_refl)).
Defined.

Lemma saved_cards_in_order_witness :
  list_saved_cards (answers (PDict (cards_found [PDict stored_card])))
    no_json message_of 0 "key"
  = Ok (PDict
          [("success", PBool true);
           ("cards",
             PList [PDict [("cardToken", PStr "tok");
                           ("cardAlias", PNone);
                           ("binNumber", PNone);
                           ("lastFourDigits", PStr "0008");
                           ("cardType", PNone);
                           ("cardAssociation", PNone)]])]).
Proof.
  apply (saved_cards_in_order
           (answers (PDict (cards_found [PDict stored_card]))) no_json
           message_of 0 (cards_found [PDict stored_card]) [stored_card] "key").
  - apply answers_value; discriminate.
  - reflexivity.
  - reflexivity.
Defined.

Lemma one_bad_card_loses_the_list_witness :
  list_saved_cards (answers (PDict (cards_found [PDict stored_card; PNone])))
    no_json message_of 0 "key"
  = Raise (HTTPException 500 (server_error "error")).
Proof.
  apply (one_bad_card_loses_the_list
           (answers (PDict (cards_found [PDict stored_card; PNone]))) no_json
           message_of 0 (cards_found [PDict stored_card; PNone])
           [stored_card] PNone [] "key").
  - apply answers_value; discriminate.
  - reflexivity.
  - reflexivity.
  - discriminate.
Defined.

Lemma payment_status_mapping_witness :
  get_payment_status
    (answers (PDict [("status", PStr "success"); ("paymentStatus", PInt 1)]))
    no_json message_of 0 "PAY1"
  = Ok (PDict [("success", PBool true); ("status", PStr "pending")]).
Proof.
  apply (proj2 (proj2 (payment_status_mapping
                         (answers (PDict [("status", PStr "success");
                                          ("paymentStatus", PInt 1)]))
                         no_json message_of 0
                         [("status", PStr "success"); ("paymentStatus", PInt 1)]
                         "PAY1"
                         (answers_value
                            (PDict [("status", PStr "success");
                                    ("paymentStatus", PInt 1)]) _ _
                            ltac:(discriminate))
                         eq_refl))
           (PInt 1)).
  - reflexivity.
  - discriminate.
Defined.

Lemma refund_round_trip_witness :
  refund_payment
    (answers (PDict [("status", PStr "success");
                     ("paymentTransactionId", PStr "R1");
                     ("price", PStr (str_float hundred))]))
    no_json message_of 0 sample_refund
  = Ok (PDict
          [("success", PBool true);
           ("refundId", PStr "R1");
           ("refundedAmount", PFloat hundred)]).
Proof.
  apply (refund_round_trip
           (answers (PDict [("status", PStr "success");
                            ("paymentTransactionId", PStr "R1");
                            ("price", PStr (str_float hundred))]))
           no_json message_of 0
           [("status", PStr "success"); ("paymentTransactionId", PStr "R1");
            ("price", PStr (str_float hundred))]
           sample_refund).
  - reflexivity.
  - apply answers_value; discriminate.
  - reflexivity.
  - reflexivity.
Defined.

Lemma unreadable_amount_is_a_server_error_witness :
  create_payment
    (answers (PDict [("status", PStr "success"); ("paymentId", PStr "PAY1");
                     ("price", PNone)]))
    no_json message_of (sample_request None)
  = Raise (HTTPException 500 (server_error "error")).
Proof.
  apply (proj1 (unreadable_amount_is_a_server_error
                  (answers (PDict [("status", PStr "success");
                                   ("paymentId", PStr "PAY1");
                                   ("price", PNone)]))
                  no_json message_of
                  [("status", PStr "success"); ("paymentId", PStr "PAY1");
                   ("price", PNone)]
                  (TypeError "float" PNone) eq_refl
                  (or_introl eq_refl))).
  apply answers_value; discriminate.
Defined.

Lemma three_ds_correlation_witness :
  init_3ds_payment
    (answers (PDict [("status", PStr "success");
                     ("conversationId", PStr "ORD1");
                     ("threeDSHtmlContent", PStr "PGh0bWw+")]))
    no_json message_of (sample_request None)
  = Ok (PDict
          [("success", PBool true);
           ("status", PStr "pending");
           ("transactionId", PStr "ORD1");
           ("htmlContent", PStr "PGh0bWw+")]).
Proof.
  apply (proj1 (three_ds_correlation
                  (answers (PDict [("status", PStr "success");
                                   ("conversationId", PStr "ORD1");
                                   ("threeDSHtmlContent", PStr "PGh0bWw+")]))
                  no_json message_of
                  [("status", PStr "success"); ("conversationId", PStr "ORD1");
                   ("threeDSHtmlContent", PStr "PGh0bWw+")]
                  (sample_request None)
                  (answers_value
                     (PDict [("status", PStr "success");
                             ("conversationId", PStr "ORD1");
                             ("threeDSHtmlContent", PStr "PGh0bWw+")]) _ _
                     ltac:(discriminate))
                  eq_refl eq_refl)).
Defined.

Lemma refused_query_never_reaches_the_processor_witness :
  get_installments (answers declined) no_json message_of 0 "12345" hundred
  = get_installments unreachable (decodes_to PNone) message_of 7 "12345" hundred.
Proof.
  apply (proj2 (refused_query_never_reaches_the_processor
                  (answers declined) no_json message_of 0 "12345" hundred)).
  discriminate.
Defined.
